(** * scripts/create-placeholder.py: the placeholder image generator

    A shallow embedding of the script and of the part of its environment
    it talks to: the Pillow drawing calls, the file system and standard
    output.  The script is a straight line of drawing calls on a 300x300
    RGB image, a save and two prints.

    Python values are modelled as follows:
    - [int] as [Z]; [float] as the binary64 primitive floats of the
      standard library, so that [int(23 + (i / 300) * 13)] is computed
      with the roundings Python performs;
    - [str] as [string] (a sequence of bytes, UTF-8 encoded);
    - the image buffer as a width, a height and a pixel function, every
      write being clipped to the buffer as Pillow's C core does;
    - exceptions as the [Raise] case of [Result]. *)

From Stdlib Require Import ZArith Floats List Lia Bool Ascii String DecimalString.
From stdpp Require Import base gmap strings list.
Import ListNotations.
Local Open Scope Z_scope.

(** ** Exceptions and fallible steps *)

Inductive OSErrorKind := ENOENT | EACCES | EISDIR | ENOSPC.

Inductive Exn :=
| ValueError (msg : string)
| OverflowError
| UnicodeEncodeError (text : string)
| OSError (kind : OSErrorKind) (path : string).

Inductive Result (A : Type) :=
| Ok (a : A)
| Raise (e : Exn).
Arguments Ok {A} a.
Arguments Raise {A} e.

#[global] Instance Result_ret : MRet Result := fun _ a => Ok a.

#[global] Instance Result_bind : MBind Result := fun _ _ k r =>
  match r with
  | Ok a => k a
  | Raise e => Raise e
  end.

(** [for x in xs: s = body(x, s)], stopping at the first exception. *)
Fixpoint for_each {A S} (xs : list A) (body : A -> S -> Result S) (s : S) : Result S :=
  match xs with
  | [] => Ok s
  | x :: xs' => s' ← body x s; for_each xs' body s'
  end.

(** [range(n)] *)
Definition range (n : nat) : list Z := map Z.of_nat (seq 0 n).

(** ** Python arithmetic on floats *)

Module PyFloat.

(** An [int] operand of a float operation is converted first.  The
    integers the script converts are not negative, and below 2^53, as
    the constants and the column indices are, the conversion is exact. *)
Definition of_int (n : Z) : float := PrimFloat.of_uint63 (Uint63.of_Z n).

(** [a / b] on two ints: true division. *)
Definition truediv (a b : Z) : float := PrimFloat.div (of_int a) (of_int b).

(** The exact value of a finite float, as [m * 2^e] with its sign. *)
Definition to_int (x : float) : Result Z :=
  match Prim2SF x with
  | S754_zero _ => Ok 0
  | S754_finite s m e =>
      let mag := if 0 <=? e then Z.shiftl (Z.pos m) e else Z.shiftr (Z.pos m) (- e) in
      Ok (if s then - mag else mag)
  | S754_infinity _ => Raise OverflowError
  | S754_nan => Raise (ValueError "cannot convert float NaN to integer")
  end.

End PyFloat.

(** Line 12: [color_val = int(23 + (i / 300) * 13)].  [int] truncates
    towards zero. *)
Definition color_val (i : Z) : Result Z :=
  PyFloat.to_int
    (PrimFloat.add (PyFloat.of_int 23)
       (PrimFloat.mul (PyFloat.truediv i 300) (PyFloat.of_int 13))).

(** The interpolation formula in exact arithmetic: [23 + floor(13 i / 300)]. *)
Definition gray_level (i : Z) : Z := 23 + (13 * i) / 300.

(** ** Colours *)

Definition RGB : Type := Z * Z * Z.

(** A colour argument is a colour string or a tuple of channel values. *)
Inductive Color :=
| ColorStr (s : string)
| ColorTuple (r g b : Z).

Definition hex_digit (c : ascii) : option Z :=
  let n := Z.of_nat (nat_of_ascii c) in
  if (48 <=? n) && (n <=? 57) then Some (n - 48)
  else if (97 <=? n) && (n <=? 102) then Some (n - 87)
  else if (65 <=? n) && (n <=? 70) then Some (n - 55)
  else None.

Definition hex_byte (hi lo : ascii) : option Z :=
  h ← hex_digit hi; l ← hex_digit lo; Some (16 * h + l).

(** [ImageColor.getrgb] on the one form the script uses, [#rrggbb]. *)
Definition getrgb (s : string) : Result RGB :=
  match s with
  | String "#" (String r1 (String r2 (String g1 (String g2
      (String b1 (String b2 EmptyString)))))) =>
      match hex_byte r1 r2, hex_byte g1 g2, hex_byte b1 b2 with
      | Some r, Some g, Some b => Ok (r, g, b)
      | _, _, _ => Raise (ValueError "unknown color specifier")
      end
  | _ => Raise (ValueError "unknown color specifier")
  end.

Definition getink (c : Color) : Result RGB :=
  match c with
  | ColorStr s => getrgb s
  | ColorTuple r g b => Ok (r, g, b)
  end.

Definition accent : Color := ColorStr "#62f5a9".

(** ** The image buffer *)

Record Image := {
  width : Z;
  height : Z;
  pixel : Z -> Z -> RGB
}.

Definition inside (img : Image) (x y : Z) : bool :=
  (0 <=? x) && (x <? width img) && (0 <=? y) && (y <? height img).

(** [Image.new('RGB', (w, h), color=c)] *)
Definition Image_new (w h : Z) (c : Color) : Result Image :=
  bg ← getink c; Ok {| width := w; height := h; pixel := fun _ _ => bg |}.

(** Every write of the C core goes through a clipped store: a
    coordinate outside the buffer is dropped. *)
Definition paint (cover : Z -> Z -> bool) (ink : Z -> Z -> RGB -> RGB) (img : Image) : Image :=
  {| width := width img;
     height := height img;
     pixel := fun x y =>
       if inside img x y && cover x y then ink x y (pixel img x y) else pixel img x y |}.

Definition paint_solid (cover : Z -> Z -> bool) (c : RGB) : Image -> Image :=
  paint cover (fun _ _ _ => c).

(** [img.tobytes()]: the pixels row by row. *)
Definition row (img : Image) (y : Z) : list RGB :=
  map (fun x => pixel img x y) (range (Z.to_nat (width img))).

Definition tobytes (img : Image) : list RGB :=
  concat (map (row img) (range (Z.to_nat (height img)))).

(** ** Drawing calls *)

Definition Point : Type := Z * Z.

Record BBox := { x0 : Z; y0 : Z; x1 : Z; y1 : Z }.

(** Corners are inclusive. *)
Definition in_bbox (b : BBox) (x y : Z) : bool :=
  (x0 b <=? x) && (x <=? x1 b) && (y0 b <=? y) && (y <=? y1 b).

(** The calls of [ImageDraw.Draw] the script makes, with the keyword
    arguments it passes. *)
Inductive DrawOp :=
| Rectangle (xy : BBox) (fill : Color)
| Ellipse (xy : BBox) (fill outline : option Color) (width : Z)
| Line (p q : Point) (fill : Color) (width : Z)
| Text (xy : Point) (text : string) (fill : Color) (anchor : string).

(** What the script relies on from Pillow without fixing it: which
    pixels of its bounding box an ellipse covers, which pixels a wide
    line covers, the glyph coverage of a text (or the exception raised
    when the font cannot honour the anchor), how partial coverage is
    blended, and the file encoder. *)
Record Pillow := {
  ellipse_cover : BBox -> bool -> Z -> Z -> Z -> bool;
  line_cover : Point -> Point -> Z -> Z -> Z -> bool;
  text_coverage : Point -> string -> string -> Result (Z -> Z -> Z);
  blend : Z -> RGB -> RGB -> RGB;
  encode : string -> bool -> Z -> Z -> list RGB -> list Byte.byte
}.

Definition check_box (b : BBox) : Result unit :=
  if x1 b <? x0 b then Raise (ValueError "x1 must be greater than or equal to x0")
  else if y1 b <? y0 b then Raise (ValueError "y1 must be greater than or equal to y0")
  else Ok tt.

(** A line of width [w] stays within [w] pixels of the box spanned by
    its end points. *)
Definition line_box (p q : Point) (w : Z) : BBox :=
  {| x0 := Z.min (fst p) (fst q) - w; y0 := Z.min (snd p) (snd q) - w;
     x1 := Z.max (fst p) (fst q) + w; y1 := Z.max (snd p) (snd q) + w |}.

Definition rgb_eqb (a b : RGB) : bool :=
  let '(r1, g1, b1) := a in
  let '(r2, g2, b2) := b in
  (r1 =? r2) && (g1 =? g2) && (b1 =? b2).

(** [ImageDraw._getink]: with neither colour given the outline is drawn
    in the default ink, white. *)
Definition getinks (fill outline : option Color) : Result (option RGB * option RGB) :=
  match fill, outline with
  | None, None => Ok (None, Some (255, 255, 255))
  | _, _ =>
      f ← match fill with Some c => i ← getink c; Ok (Some i) | None => Ok None end;
      o ← match outline with Some c => i ← getink c; Ok (Some i) | None => Ok None end;
      Ok (f, o)
  end.

Definition draw_ellipse (pil : Pillow) (b : BBox) (fill outline : option Color)
    (w : Z) (img : Image) : Result Image :=
  inks ← getinks fill outline;
  _ ← check_box b;
  let img1 :=
    match fst inks with
    | Some ink =>
        paint_solid (fun x y => in_bbox b x y && ellipse_cover pil b true 0 x y) ink img
    | None => img
    end in
  match snd inks with
  | Some ink =>
      if (w =? 0) || (match fst inks with Some f => rgb_eqb ink f | None => false end)
      then Ok img1
      else Ok (paint_solid (fun x y => in_bbox b x y && ellipse_cover pil b false w x y) ink img1)
  | None => Ok img1
  end.

(** [draw.<op>(...)] on the image behind [draw]. *)
Definition exec (pil : Pillow) (op : DrawOp) (img : Image) : Result Image :=
  match op with
  | Rectangle b fill =>
      ink ← getink fill;
      _ ← check_box b;
      Ok (paint_solid (in_bbox b) ink img)
  | Ellipse b fill outline w => draw_ellipse pil b fill outline w img
  | Line p q fill w =>
      ink ← getink fill;
      Ok (paint_solid (fun x y => in_bbox (line_box p q w) x y && line_cover pil p q w x y) ink img)
  | Text xy s fill anchor =>
      ink ← getink fill;
      cov ← text_coverage pil xy s anchor;
      Ok (paint (fun x y => negb (cov x y =? 0)) (fun x y under => blend pil (cov x y) ink under) img)
  end.

(** ** The drawing part of the script *)

(** Lines 12 and 13, the call made for column [i]. *)
Definition gradient_call (i : Z) : Result DrawOp :=
  v ← color_val i;
  Ok (Rectangle {| x0 := i; y0 := 0; x1 := i + 1; y1 := 300 |} (ColorTuple v v (v + 4))).

Definition gradient_step (pil : Pillow) (i : Z) (img : Image) : Result Image :=
  op ← gradient_call i; exec pil op img.

(** Lines 11 to 13. *)
Definition gradient (pil : Pillow) (img : Image) : Result Image :=
  for_each (range 300) (gradient_step pil) img.

(** Lines 16 to 18. *)
Definition icon_calls : list DrawOp :=
  [ Ellipse {| x0 := 120; y0 := 140; x1 := 180; y1 := 200 |} None (Some accent) 2;
    Line (175, 150) (175, 100) accent 3;
    Ellipse {| x0 := 165; y0 := 95; x1 := 185; y1 := 115 |} (Some accent) None 1 ].

Definition icon (pil : Pillow) (img : Image) : Result Image :=
  for_each icon_calls (exec pil) img.

(** Line 22. *)
Definition caption_call : DrawOp := Text (150, 230) "No Artwork" accent "mm".

(** Lines 21 to 24: [try: draw.text(...) except: pass]. *)
Definition caption (pil : Pillow) (img : Image) : Image :=
  match exec pil caption_call img with
  | Ok img' => img'
  | Raise _ => img
  end.

(** Line 7. *)
Definition background : Result Image := Image_new 300 300 (ColorStr "#17181c").

(** Lines 7 to 13: the image after the gradient pass. *)
Definition gradient_pass (pil : Pillow) : Result Image :=
  img ← background; gradient pil img.

(** Lines 7 to 18: the image when the caption is about to be drawn. *)
Definition before_caption (pil : Pillow) : Result Image :=
  img ← gradient_pass pil; icon pil img.

(** Lines 7 to 24: the image as it stands when [save] is called. *)
Definition render (pil : Pillow) : Result Image :=
  img ← before_caption pil; Ok (caption pil img).

(** ** Paths ([posixpath]) *)

Definition sep : ascii := "/"%char.

Definition is_sep (c : ascii) : bool := Ascii.eqb c sep.

(** [p[:p.rfind('/') + 1]] *)
Fixpoint upto_last_sep (p : string) : string :=
  match p with
  | EmptyString => EmptyString
  | String c r =>
      match upto_last_sep r with
      | EmptyString => if is_sep c then String c EmptyString else EmptyString
      | h => String c h
      end
  end.

Fixpoint all_sep (p : string) : bool :=
  match p with
  | EmptyString => true
  | String c r => is_sep c && all_sep r
  end.

(** [p.rstrip('/')] *)
Fixpoint rstrip_sep (p : string) : string :=
  match p with
  | EmptyString => EmptyString
  | String c r =>
      match rstrip_sep r with
      | EmptyString => if is_sep c then EmptyString else String c EmptyString
      | r' => String c r'
      end
  end.

(** [os.path.dirname] *)
Definition dirname (p : string) : string :=
  let head := upto_last_sep p in
  if all_sep head then head else rstrip_sep head.

Fixpoint ends_with_sep (p : string) : bool :=
  match p with
  | EmptyString => false
  | String c EmptyString => is_sep c
  | String _ r => ends_with_sep r
  end.

Definition starts_with_sep (p : string) : bool :=
  match p with
  | String c _ => is_sep c
  | EmptyString => false
  end.

(** One round of the loop of [os.path.join]. *)
Definition join2 (path b : string) : string :=
  if starts_with_sep b then b
  else if String.eqb path EmptyString || ends_with_sep path then path ++ b
  else path ++ String sep b.

Definition path_join (a : string) (parts : list string) : string :=
  fold_left join2 parts a.

(** Line 27. *)
Definition output_path (file : string) : string :=
  path_join (dirname file) [ ".."; "public"; "img"; "placeholder-new.png" ]%string.

(** ** Number formatting *)

(** A non-negative [int] in decimal. *)
Definition dec (n : Z) : string := NilZero.string_of_uint (N.to_uint (Z.to_N n)).

(** [num / den] rounded to the nearest integer, a tie going to the even
    neighbour. *)
Definition round_half_even (num den : Z) : Z :=
  let q := num / den in
  let r := num mod den in
  if 2 * r <? den then q
  else if den <? 2 * r then q + 1
  else if Z.even q then q else q + 1.

(** [format(x, '.1f')]: the exact binary value of [x], correctly rounded
    to one digit after the point. *)
Definition format_1f (x : float) : string :=
  match Prim2SF x with
  | S754_zero s => (if s then "-0.0" else "0.0")%string
  | S754_finite s m e =>
      let t := if 0 <=? e then 10 * Z.pos m * 2 ^ e
               else round_half_even (10 * Z.pos m) (2 ^ (- e)) in
      ((if s then "-" else "") ++ dec (t / 10) ++ "." ++ dec (t mod 10))%string
  | S754_infinity s => (if s then "-inf" else "inf")%string
  | S754_nan => "nan"%string
  end.

(** ** The file system and standard output *)

(** Files and directories are named by the path strings the program
    uses.  [readonly] holds the paths that refuse writing; [room path n]
    tells whether the volume has room for a file of [n] bytes at [path],
    which is for the volume to decide (it allocates blocks, not bytes). *)
Record FileSystem := {
  dirs : gset string;
  files : gmap string (list Byte.byte);
  readonly : gset string;
  room : string -> Z -> bool
}.

(** [sys.stdout] encodes the text it is given, with the strict error
    handler, and hands the bytes to a device. *)
Inductive Encoding := UTF8 | ASCII.

(** A device that takes what it is given; one that fails each write at
    once, as an unbuffered or line-buffered stream on a broken device
    does; and one behind a block buffer, where the failure shows when
    the interpreter flushes at exit. *)
Inductive Device :=
| Healthy
| FailsOnWrite (kind : OSErrorKind)
| FailsOnFlush (kind : OSErrorKind).

Record Stream := {
  encoding : Encoding;
  device : Device
}.

(** [stdout] holds the lines written to [sys.stdout] so far. *)
Record World := {
  fs : FileSystem;
  stdout : list string;
  stdout_stream : Stream
}.

(** [open(path, 'w+b')], writing [data] and closing: the file is
    created or truncated and holds exactly [data] afterwards. *)
Definition write_file (path : string) (data : list Byte.byte) (f : FileSystem)
    : Result FileSystem :=
  if bool_decide (dirname path ∉ dirs f) then Raise (OSError ENOENT path)
  else if bool_decide (path ∈ dirs f) then Raise (OSError EISDIR path)
  else if bool_decide (path ∈ readonly f)
          || (bool_decide (files f !! path = None) && bool_decide (dirname path ∈ readonly f))
       then Raise (OSError EACCES path)
  else if negb (room f path (Z.of_nat (length data))) then Raise (OSError ENOSPC path)
  else Ok {| dirs := dirs f;
             files := <[path := data]> (files f);
             readonly := readonly f;
             room := room f |}.

(** The run of a process step: it completes in a new world, or an
    exception escapes.  Past an uncaught exception only what was printed
    is followed. *)
Inductive Run (A : Type) :=
| Done (a : A) (w : World)
| Uncaught (e : Exn) (out : list string).
Arguments Done {A} a w.
Arguments Uncaught {A} e out.

Definition Proc (A : Type) : Type := World -> Run A.

#[global] Instance Proc_ret : MRet Proc := fun _ a w => Done a w.

#[global] Instance Proc_bind : MBind Proc := fun _ _ k m w =>
  match m w with
  | Done a w' => k a w'
  | Uncaught e out => Uncaught e out
  end.

(** A computation that touches neither the file system nor the output. *)
Definition lift {A} (r : Result A) : Proc A := fun w =>
  match r with
  | Ok a => Done a w
  | Raise e => Uncaught e (stdout w)
  end.

(** The text a stream can encode: with ASCII, bytes below 128 only. *)
Fixpoint is_ascii (s : string) : bool :=
  match s with
  | EmptyString => true
  | String c r => (Z.of_nat (nat_of_ascii c) <? 128) && is_ascii r
  end.

Definition encodable (enc : Encoding) (s : string) : bool :=
  match enc with
  | UTF8 => true
  | ASCII => is_ascii s
  end.

(** The world with another file system, and with one more line on
    [sys.stdout]. *)
Definition set_fs (f : FileSystem) (w : World) : World :=
  {| fs := f; stdout := stdout w; stdout_stream := stdout_stream w |}.

Definition put_line (s : string) (w : World) : World :=
  {| fs := fs w; stdout := stdout w ++ [s]; stdout_stream := stdout_stream w |}.

(** [print(s)]: the line is encoded, then written.  A character the
    encoding lacks raises [UnicodeEncodeError]; a device that fails the
    write raises [OSError]; behind a block buffer the write is only
    stored. *)
Definition print (s : string) : Proc unit := fun w =>
  if negb (encodable (encoding (stdout_stream w)) s)
  then Uncaught (UnicodeEncodeError s) (stdout w)
  else match device (stdout_stream w) with
       | FailsOnWrite kind => Uncaught (OSError kind "<stdout>") (stdout w)
       | Healthy | FailsOnFlush _ => Done tt (put_line s w)
       end.

(** [img.save(path, format, optimize=..., quality=...)].  The PNG
    encoder has no use for [quality]. *)
Definition save (pil : Pillow) (img : Image) (path format : string)
    (optimize : bool) (quality : Z) : Proc unit := fun w =>
  let data := encode pil format optimize (width img) (height img) (tobytes img) in
  match write_file path data (fs w) with
  | Ok f => Done tt (set_fs f w)
  | Raise e => Uncaught e (stdout w)
  end.

(** [os.path.getsize(path)] *)
Definition getsize (path : string) : Proc Z := fun w =>
  match files (fs w) !! path with
  | Some data => Done (Z.of_nat (length data)) w
  | None => Uncaught (OSError ENOENT path) (stdout w)
  end.

(** ** The script *)

Definition created_line (path : string) : string :=
  "✓ Created optimized placeholder: " ++ path.

Definition size_line (size : Z) : string :=
  "✓ Size: " ++ format_1f (PyFloat.truediv size 1024) ++ "KB (was 4.4MB)".

(** Lines 27 to 33. *)
Definition save_and_report (pil : Pillow) (file : string) (img : Image) : Proc unit :=
  let output_path := output_path file in
  _ ← save pil img output_path "PNG" true 85;
  _ ← print (created_line output_path);
  size ← getsize output_path;
  print (size_line size).

(** The whole script; [file] is [__file__]. *)
Definition main (pil : Pillow) (file : string) : Proc unit :=
  img ← lift (render pil); save_and_report pil file img.


(** ** The refinement target of the gradient loop *)

(** The loop as the specification words it: column [i] alone, rows 0
    to 299, in the colour of the column. *)
Definition column_cover (i : Z) (x y : Z) : bool :=
  (x =? i) && (0 <=? y) && (y <? 300).

Definition column_step (i : Z) (img : Image) : Result Image :=
  v ← color_val i;
  ink ← getink (ColorTuple v v (v + 4));
  Ok (paint_solid (column_cover i) ink img).

Definition gradient_columns (img : Image) : Result Image :=
  for_each (range 300) column_step img.

(** * Vocabulary of the properties *)

(** ** The gradient *)

Definition color_val_agrees (i : Z) : bool :=
  match color_val i with
  | Ok v => v =? gray_level i
  | Raise _ => false
  end.

Definition colour_of (i : Z) : RGB := (gray_level i, gray_level i, gray_level i + 4).

Definition strip_box (i : Z) : BBox := {| x0 := i; y0 := 0; x1 := i + 1; y1 := 300 |}.

Definition first_strip : DrawOp := Rectangle (strip_box 0) (ColorTuple 23 23 27).

(** The image of line 7. *)
Definition blank : Image :=
  {| width := 300; height := 300; pixel := fun _ _ => (23, 24, 28) |}.

(** A call that writes in column [i] only. *)
Definition writes_only_column (i : Z) (img img' : Image) : Prop :=
  forall x y, x <> i -> pixel img' x y = pixel img x y.

(** The image after the first [k] rounds of the loop: columns below [k]
    carry their own colour, column [k] still carries the colour of the
    strip before it, the rest is as it was. *)
Definition after_strips (k : Z) (img0 img : Image) : Prop :=
  width img = width img0 /\ height img = height img0 /\
  forall x y, pixel img x y =
    if inside img0 x y && (y <=? 300) then
      if x <? k then colour_of x
      else if (x =? k) && (0 <? k) then colour_of (k - 1)
      else pixel img0 x y
    else pixel img0 x y.

(** The same for the loop over single columns. *)
Definition after_columns (k : Z) (img0 img : Image) : Prop :=
  width img = width img0 /\ height img = height img0 /\
  forall x y, pixel img x y =
    if inside img0 x y && (y <? 300) then
      if x <? k then colour_of x else pixel img0 x y
    else pixel img0 x y.

(** The loop over single columns, from a fresh image. *)
Definition columns_pass : Result Image :=
  img ← background; gradient_columns img.

(** ** Regions and coordinates of the calls *)

(** The accent colour, parsed. *)
Definition accent_rgb : RGB := (98, 245, 169).

(** The box a call writes in; the extent of a text is the font's. *)
Definition op_box (op : DrawOp) : option BBox :=
  match op with
  | Rectangle b _ => Some b
  | Ellipse b _ _ _ => Some b
  | Line p q _ w => Some (line_box p q w)
  | Text _ _ _ _ => None
  end.

(** The pixels the three icon calls can reach. *)
Definition icon_area (x y : Z) : bool :=
  existsb (fun op => match op_box op with
                     | Some b => in_bbox b x y
                     | None => true
                     end) icon_calls.

(** The pixels the caption touches: those its glyphs cover, none when
    the text call raises. *)
Definition caption_area (pil : Pillow) (x y : Z) : bool :=
  match text_coverage pil (150, 230) "No Artwork" "mm" with
  | Ok cov => negb (cov x y =? 0)
  | Raise _ => false
  end.

(** The coordinates a call names. *)
Definition op_points (op : DrawOp) : list Point :=
  match op with
  | Rectangle b _ => [ (x0 b, y0 b); (x1 b, y1 b) ]
  | Ellipse b _ _ _ => [ (x0 b, y0 b); (x1 b, y1 b) ]
  | Line p q _ _ => [ p; q ]
  | Text xy _ _ _ => [ xy ]
  end.

(** The calls the script makes. *)
Definition issued (op : DrawOp) : Prop :=
  (exists i, 0 <= i < 300 /\ gradient_call i = Ok op)
  \/ In op icon_calls
  \/ op = caption_call.

(** Both coordinates in [lo, hi). *)
Definition within (lo hi : Z) (p : Point) : Prop :=
  lo <= fst p < hi /\ lo <= snd p < hi.

(** Both coordinates in [lo, hi]. *)
Definition within_closed (lo hi : Z) (p : Point) : Prop :=
  lo <= fst p <= hi /\ lo <= snd p <= hi.

(** Channel by channel at most one apart. *)
Definition within_one (a b : RGB) : Prop :=
  let '(r1, g1, b1) := a in
  let '(r2, g2, b2) := b in
  Z.abs (r1 - r2) <= 1 /\ Z.abs (g1 - g2) <= 1 /\ Z.abs (b1 - b2) <= 1.

(** A step that leaves the size alone and writes inside the image only. *)
Definition clipped (img img' : Image) : Prop :=
  width img' = width img /\ height img' = height img
  /\ forall x y, inside img x y = false -> pixel img' x y = pixel img x y.

(** ** The file the script writes *)

(** The bytes handed to the file system for an image. *)
Definition png_of (pil : Pillow) (img : Image) : list Byte.byte :=
  encode pil "PNG" true (width img) (height img) (tobytes img).

(** The file system after a successful write. *)
Definition written (path : string) (data : list Byte.byte) (f : FileSystem) : FileSystem :=
  {| dirs := dirs f;
     files := <[path := data]> (files f);
     readonly := readonly f;
     room := room f |}.

(** The conditions under which [open] and [write] go through. *)
Definition writable (path : string) (data : list Byte.byte) (f : FileSystem) : Prop :=
  (dirname path ∈ dirs f)
  /\ (path ∉ dirs f)
  /\ (path ∉ readonly f)
  /\ (files f !! path = None -> dirname path ∉ readonly f)
  /\ room f path (Z.of_nat (length data)) = true.

(** A stream whose device does not fail a write at once. *)
Definition takes_writes (st : Stream) : bool :=
  match device st with
  | FailsOnWrite _ => false
  | Healthy | FailsOnFlush _ => true
  end.

(** The world at the end of a completed run: the file system after the
    write, and the two lines on [sys.stdout]. *)
Definition finished (f : FileSystem) (path : string) (size : Z) (w : World) : World :=
  {| fs := f;
     stdout := stdout w ++ [ created_line path; size_line size ];
     stdout_stream := stdout_stream w |}.

(** The separator [os.path.join] puts after a directory name. *)
Definition joint (dir : string) : string :=
  if String.eqb dir "" || ends_with_sep dir then ""%string else "/"%string.

(** ** The size in kilobytes *)

(** The mantissa of an integer below 2^53, shifted to 53 digits. *)
Definition mantissa53 (p : positive) : positive :=
  match (Z.pos (digits2_pos p) - 53)%Z with
  | Zneg k => Pos.iter xO p k
  | _ => p
  end.

(** [num / den] to one decimal place: the nearest multiple of a tenth,
    a tie going to the even one. *)
Definition one_decimal (num den : Z) : string :=
  let t := round_half_even (10 * num) den in
  (dec (t / 10) ++ "." ++ dec (t mod 10))%string.

(** ** Two backends to run the script on *)

Definition sq (a : Z) : Z := a * a.

(** The points of the ellipse inscribed in a box, in integers. *)
Definition in_ellipse (b : BBox) (x y : Z) : bool :=
  let w := x1 b - x0 b in
  let h := y1 b - y0 b in
  sq (2 * x - x0 b - x1 b) * sq h + sq (2 * y - y0 b - y1 b) * sq w <=? sq w * sq h.

Definition shrink (b : BBox) (w : Z) : BBox :=
  {| x0 := x0 b + w; y0 := y0 b + w; x1 := x1 b - w; y1 := y1 b - w |}.

Definition png_signature : list Byte.byte :=
  [ Byte.x89; Byte.x50; Byte.x4e; Byte.x47; Byte.x0d; Byte.x0a; Byte.x1a; Byte.x0a ].

(** A backend with a fixed-width font six pixels wide and eleven high,
    hard glyph edges, and an encoder that writes one byte per pixel
    after the signature. *)
Definition plain_pil : Pillow :=
  {| ellipse_cover := fun b filled w x y =>
       in_ellipse b x y && (filled || negb (in_ellipse (shrink b w) x y));
     line_cover := fun p q w x y =>
       (Z.abs (2 * (x - fst p)) <=? w)
       && (Z.min (snd p) (snd q) <=? y) && (y <=? Z.max (snd p) (snd q));
     text_coverage := fun xy s anchor =>
       let half := 3 * Z.of_nat (String.length s) in
       Ok (fun x y =>
             if (fst xy - half <=? x) && (x <? fst xy + half)
                && (snd xy - 5 <=? y) && (y <=? snd xy + 5)
             then 255 else 0);
     blend := fun cov ink under => ink;
     encode := fun format optimize w h data =>
       png_signature ++ map (fun _ => Byte.x00) data |}.

(** The same backend with a font that refuses anchors, as bitmap fonts
    do. *)
Definition bitmap_font_pil : Pillow :=
  {| ellipse_cover := ellipse_cover plain_pil;
     line_cover := line_cover plain_pil;
     text_coverage := fun xy s anchor =>
       Raise (ValueError "anchor not supported for non-TrueType fonts");
     blend := blend plain_pil;
     encode := encode plain_pil |}.

(** ** Worlds to run the script in *)

Definition script_file : string := "/srv/app/scripts/create-placeholder.py".

Definition img_dir : string := "/srv/app/scripts/../public/img".

Definition stale_png : list Byte.byte := png_signature ++ [ Byte.x01; Byte.x02; Byte.x03 ].

(** The output directory exists and holds a stale placeholder. *)
Definition stale_fs : FileSystem :=
  {| dirs := {[ img_dir ]};
     files := {[ output_path script_file := stale_png ]};
     readonly := ∅;
     room := fun _ n => n <=? 1000000 |}.

(** A terminal that takes UTF-8. *)
Definition console : Stream := {| encoding := UTF8; device := Healthy |}.

Definition stale_world : World :=
  {| fs := stale_fs; stdout := []; stdout_stream := console |}.




(** The image the plain backend renders and the world a run on the
    stale world ends in. *)
Definition plain_image : Image :=
  match render plain_pil with
  | Ok img => img
  | Raise _ => blank
  end.

Definition fresh_world : World :=
  {| fs := written (output_path script_file) (png_of plain_pil plain_image) stale_fs;
     stdout := [ created_line (output_path script_file);
                 size_line (Z.of_nat (length (png_of plain_pil plain_image))) ];
     stdout_stream := console |}.

(** The world after running the script a second time. *)
Definition second_world : World :=
  {| fs := fs fresh_world; stdout := stdout fresh_world ++ stdout fresh_world;
     stdout_stream := console |}.

(** ** Further vocabulary: the gradient on other images *)

(** An image one column and one row larger than the script's. *)
Definition wide_blank : Image :=
  {| width := 301; height := 301; pixel := fun _ _ => (23, 24, 28) |}.

(** A 300 by 300 image with other contents than the script's. *)
Definition checker : Image :=
  {| width := 300; height := 300;
     pixel := fun x y => if Z.even (x + y) then (0, 0, 0) else (255, 255, 255) |}.

(** ** Further vocabulary: the icon *)

(** The pixels the three icon calls cover with a given backend: the
    ring of the note head, the stem and the filled top. *)
Definition icon_cover (pil : Pillow) (x y : Z) : bool :=
  (in_bbox {| x0 := 120; y0 := 140; x1 := 180; y1 := 200 |} x y
   && ellipse_cover pil {| x0 := 120; y0 := 140; x1 := 180; y1 := 200 |} false 2 x y)
  || (in_bbox (line_box (175, 150) (175, 100) 3) x y
      && line_cover pil (175, 150) (175, 100) 3 x y)
  || (in_bbox {| x0 := 165; y0 := 95; x1 := 185; y1 := 115 |} x y
      && ellipse_cover pil {| x0 := 165; y0 := 95; x1 := 185; y1 := 115 |} true 0 x y).

(** ** Further vocabulary: paths *)

(** A file name without a separator. *)
Fixpoint no_sep (s : string) : bool :=
  match s with
  | EmptyString => true
  | String c r => negb (is_sep c) && no_sep r
  end.

(** The output directory does not exist, though the directory of the
    script does. *)
Definition no_public_fs : FileSystem :=
  {| dirs := {[ "/srv/app/scripts"%string; "/srv/app"%string ]};
     files := {[ script_file := [ Byte.x23 ] ]};
     readonly := ∅;
     room := fun _ n => n <=? 1000000 |}.

Definition no_public_world : World :=
  {| fs := no_public_fs; stdout := [ "$ run"%string ]; stdout_stream := console |}.

(** ** Further vocabulary: the size report *)

(** The second line, for a size of [t] tenths of a kilobyte. *)
Definition size_text (t : Z) : string :=
  ("✓ Size: " ++ dec (t / 10) ++ "." ++ dec (t mod 10) ++ "KB (was 4.4MB)")%string.

(** ** Tactics *)

(** Case analysis on every integer comparison of the goal. *)
Ltac zbool :=
  repeat match goal with
    | |- context [Z.ltb ?a ?b] => destruct (Z.ltb_spec a b)
    | |- context [Z.leb ?a ?b] => destruct (Z.leb_spec a b)
    | |- context [Z.eqb ?a ?b] => destruct (Z.eqb_spec a b)
    end;
  simpl.

(** * Properties *)

(** ** Loops and ranges *)

Lemma for_each_app {A S} (body : A -> S -> Result S) (l1 l2 : list A) (s : S) :
  for_each (l1 ++ l2) body s = (s' ← for_each l1 body s; for_each l2 body s').
Proof.
  revert s. induction l1 as [| a l1 IH]; intros s; simpl; [reflexivity |].
  destruct (body a s) as [s1 | e]; simpl; [apply IH | reflexivity].
Qed.

Lemma range_S (n : nat) : range (S n) = range n ++ [Z.of_nat n].
Proof. unfold range. rewrite seq_S, map_app. reflexivity. Qed.

Lemma elem_of_range (n : nat) (i : Z) : 0 <= i < Z.of_nat n -> In i (range n).
Proof.
  intros H. unfold range. apply in_map_iff. exists (Z.to_nat i). split; [lia |].
  apply in_seq. lia.
Qed.

(** ** The gray level of a column *)

Lemma color_val_table : forallb color_val_agrees (range 300) = true.
Proof. vm_compute. reflexivity. Qed.

(** The float computation of line 12 never raises on the columns of the
    loop and yields the floor of the exact interpolation. *)
Lemma color_val_exact (i : Z) : 0 <= i < 300 -> color_val i = Ok (gray_level i).
Proof.
  intros H.
  pose proof (proj1 (forallb_forall _ _) color_val_table i (elem_of_range 300 i H)) as Hi.
  unfold color_val_agrees in Hi.
  destruct (color_val i) as [v | e]; [| discriminate].
  apply Z.eqb_eq in Hi. congruence.
Qed.

Lemma gray_level_bounds (i : Z) : 0 <= i < 300 -> 23 <= gray_level i <= 35.
Proof.
  intros H. unfold gray_level.
  assert (0 <= 13 * i / 300) by (apply Z.div_pos; lia).
  assert (13 * i / 300 < 13) by (apply Z.div_lt_upper_bound; lia).
  lia.
Qed.


(** ** The gradient pass *)

Lemma gradient_call_ok (i : Z) :
  0 <= i < 300 ->
  gradient_call i =
    Ok (Rectangle (strip_box i) (ColorTuple (gray_level i) (gray_level i) (gray_level i + 4))).
Proof. intros H. unfold gradient_call. rewrite (color_val_exact i H). reflexivity. Qed.

Lemma gradient_step_ok (pil : Pillow) (i : Z) (img : Image) :
  0 <= i < 300 ->
  gradient_step pil i img = Ok (paint_solid (in_bbox (strip_box i)) (colour_of i) img).
Proof.
  intros H. unfold gradient_step. rewrite (gradient_call_ok i H). simpl.
  unfold check_box. simpl.
  destruct (Z.ltb_spec (i + 1) i); [lia |]. reflexivity.
Qed.

Lemma gradient_prefix (pil : Pillow) (img0 : Image) (k : nat) :
  (k <= 300)%nat ->
  exists img, for_each (range k) (gradient_step pil) img0 = Ok img
              /\ after_strips (Z.of_nat k) img0 img.
Proof.
  induction k as [| k IH]; intros Hk.
  - exists img0. split; [reflexivity |]. repeat split. intros x y.
    unfold inside. zbool; try reflexivity; lia.
  - destruct IH as (img & Hrun & Hw & Hh & Hpix); [lia |].
    rewrite range_S, for_each_app, Hrun. simpl.
    rewrite gradient_step_ok by lia.
    eexists. split; [reflexivity |]. repeat split; simpl; try assumption.
    intros x y. rewrite Hpix. unfold inside, in_bbox, strip_box. simpl.
    rewrite Hw, Hh.
    zbool; try reflexivity; try lia;
      try (f_equal; lia); try (subst; f_equal; lia).
Qed.

Lemma column_step_ok (i : Z) (img : Image) :
  0 <= i < 300 ->
  column_step i img = Ok (paint_solid (column_cover i) (colour_of i) img).
Proof. intros H. unfold column_step. rewrite (color_val_exact i H). reflexivity. Qed.

Lemma columns_prefix (img0 : Image) (k : nat) :
  (k <= 300)%nat ->
  exists img, for_each (range k) column_step img0 = Ok img
              /\ after_columns (Z.of_nat k) img0 img.
Proof.
  induction k as [| k IH]; intros Hk.
  - exists img0. split; [reflexivity |]. repeat split. intros x y.
    unfold inside. zbool; try reflexivity; lia.
  - destruct IH as (img & Hrun & Hw & Hh & Hpix); [lia |].
    rewrite range_S, for_each_app, Hrun. simpl.
    rewrite column_step_ok by lia.
    eexists. split; [reflexivity |]. repeat split; simpl; try assumption.
    intros x y. rewrite Hpix. unfold inside, column_cover. rewrite Hw, Hh.
    zbool; try reflexivity; try lia; try (subst; reflexivity).
Qed.

Lemma background_blank : background = Ok blank.
Proof. reflexivity. Qed.

(** The gradient pass completes, on an image of the same size whose
    columns carry their colours. *)
Lemma gradient_pass_ok (pil : Pillow) :
  exists img, gradient_pass pil = Ok img
              /\ width img = 300 /\ height img = 300
              /\ forall x y, pixel img x y =
                   if inside blank x y then colour_of x else pixel blank x y.
Proof.
  destruct (gradient_prefix pil blank 300) as (img & Hrun & Hw & Hh & Hpix); [lia |].
  exists img. unfold gradient_pass, gradient. rewrite background_blank. simpl.
  split; [exact Hrun |]. split; [exact Hw |]. split; [exact Hh |].
  intros x y. rewrite Hpix. unfold inside. simpl.
  zbool; try reflexivity; lia.
Qed.

Lemma tobytes_ext (a b : Image) :
  width a = width b -> height a = height b ->
  (forall x y, pixel a x y = pixel b x y) -> tobytes a = tobytes b.
Proof.
  intros Hw Hh Hpix. unfold tobytes. rewrite Hh. f_equal.
  apply map_ext. intros y. unfold row. rewrite Hw.
  apply map_ext. intros x. apply Hpix.
Qed.

(** C2 as stated fails in its last clause: the call for column 0 is
    not one pixel wide, it also writes column 1. *)
Lemma first_strip_two_columns :
  exists img,
    gradient_step plain_pil 0 blank = Ok img
    /\ pixel blank 1 0 = (23, 24, 28)
    /\ pixel img 1 0 = (23, 23, 27)
    /\ ~ writes_only_column 0 blank img.
Proof.
  eexists. split; [apply gradient_step_ok; lia |].
  split; [reflexivity |]. split; [reflexivity |].
  intros H. specialize (H 1 0 ltac:(lia)). discriminate H.
Qed.

(** C2, as the code has it: the call for column [i] fills the strip of
    columns [i] and [i + 1], rows 0 to 300, as far as the image reaches,
    with [(v, v, v + 4)], [v = 23 + floor(13 i / 300)], and changes
    nothing else; the next call paints column [i + 1] again.  After the
    pass, and before the icon and the caption, the pixel of every column
    [i] of [0, 300) is [(v, v, v + 4)] on every row, [v] being also the
    value line 12 computes in floating point; the image is still 300 by
    300. *)
Theorem gradient_pass_strips (pil : Pillow) :
  (forall i img, 0 <= i < 300 ->
     exists img',
       gradient_step pil i img = Ok img'
       /\ width img' = width img /\ height img' = height img
       /\ forall x y,
            pixel img' x y =
              if inside img x y && (i <=? x) && (x <=? i + 1) && (0 <=? y) && (y <=? 300)
              then (23 + (13 * i) / 300, 23 + (13 * i) / 300, 23 + (13 * i) / 300 + 4)
              else pixel img x y)
  /\ exists img,
       gradient_pass pil = Ok img
       /\ width img = 300 /\ height img = 300
       /\ forall i y, 0 <= i < 300 -> 0 <= y < 300 ->
            let v := 23 + (13 * i) / 300 in
            color_val i = Ok v /\ pixel img i y = (v, v, v + 4).
Proof.
  split.
  - intros i img Hi. eexists. split; [apply (gradient_step_ok pil i img Hi) |].
    split; [reflexivity |]. split; [reflexivity |].
    intros x y. unfold paint_solid, paint, in_bbox, strip_box, colour_of, gray_level.
    cbn [pixel x0 x1 y0 y1].
    destruct (inside img x y), (i <=? x), (x <=? i + 1), (0 <=? y), (y <=? 300);
      reflexivity.
  - destruct (gradient_pass_ok pil) as (img & Hrun & Hw & Hh & Hpix).
    exists img. repeat (split; [assumption |]).
    intros i y Hi Hy. split; [apply (color_val_exact i Hi) |].
    rewrite Hpix. unfold inside. simpl. zbool; try lia. reflexivity.
Qed.

Lemma gradient_pass_strips_witness :
  (exists img', gradient_step plain_pil 150 blank = Ok img'
                /\ pixel img' 151 42 = (29, 29, 33))
  /\ exists img, gradient_pass plain_pil = Ok img /\ pixel img 150 42 = (29, 29, 33).
Proof.
  destruct (gradient_pass_strips plain_pil) as (Hstep & img & Hrun & _ & _ & Hpix).
  split.
  - destruct (Hstep 150 blank ltac:(lia)) as (img' & Hs & _ & _ & Hp).
    exists img'. split; [exact Hs |]. exact (Hp 151 42).
  - exists img. split; [exact Hrun |].
    exact (proj2 (Hpix 150 42 ltac:(lia) ltac:(lia))).
Defined.

Lemma columns_pass_ok :
  exists img, columns_pass = Ok img
              /\ width img = 300 /\ height img = 300
              /\ forall x y, pixel img x y =
                   if inside blank x y then colour_of x else pixel blank x y.
Proof.
  destruct (columns_prefix blank 300) as (img & Hrun & Hw & Hh & Hpix); [lia |].
  exists img. unfold columns_pass, gradient_columns. rewrite background_blank. simpl.
  split; [exact Hrun |]. split; [exact Hw |]. split; [exact Hh |].
  intros x y. rewrite Hpix. unfold inside. simpl.
  zbool; try reflexivity; lia.
Qed.

(** C10: the calls of the gradient loop take the inclusive corners
    [(i, 0)] and [(i + 1, 300)]; the strips of two consecutive rounds
    both cover column [i + 1]; the last strip reaches the point
    (300, 300), which lies outside the image and is dropped.  Even so
    the loop leaves the same image, pixel for pixel, as filling the
    disjoint columns [i] x [0, 300) in the same colours. *)
Theorem gradient_refines_columns (pil : Pillow) :
  (forall i, 0 <= i < 300 ->
     exists c, gradient_call i =
                 Ok (Rectangle {| x0 := i; y0 := 0; x1 := i + 1; y1 := 300 |} c))
  /\ (forall i y, 0 <= i < 299 -> 0 <= y < 300 ->
        in_bbox (strip_box i) (i + 1) y = true
        /\ in_bbox (strip_box (i + 1)) (i + 1) y = true)
  /\ (in_bbox (strip_box 299) 300 300 = true /\ inside blank 300 300 = false)
  /\ exists a b,
       gradient_pass pil = Ok a /\ columns_pass = Ok b
       /\ width a = width b /\ height a = height b
       /\ (forall x y, pixel a x y = pixel b x y)
       /\ tobytes a = tobytes b.
Proof.
  split; [| split; [| split]].
  - intros i Hi. eexists. apply (gradient_call_ok i Hi).
  - intros i y Hi Hy. unfold in_bbox, strip_box. simpl. zbool; try lia; auto.
  - split; reflexivity.
  - destruct (gradient_pass_ok pil) as (a & Ha & Hwa & Hha & Hpa).
    destruct columns_pass_ok as (b & Hb & Hwb & Hhb & Hpb).
    assert (Hpix : forall x y, pixel a x y = pixel b x y).
    { intros x y. rewrite Hpa, Hpb. reflexivity. }
    exists a, b. repeat (split; [congruence || assumption |]).
    apply tobytes_ext; congruence.
Qed.

Lemma gradient_refines_columns_witness :
  (exists c, gradient_call 7 = Ok (Rectangle {| x0 := 7; y0 := 0; x1 := 8; y1 := 300 |} c))
  /\ in_bbox (strip_box 7) 8 20 = true /\ in_bbox (strip_box 8) 8 20 = true.
Proof.
  destruct (gradient_refines_columns plain_pil) as (Hcall & Hover & _).
  split; [exact (Hcall 7 ltac:(lia)) |].
  exact (Hover 7 20 ltac:(lia) ltac:(lia)).
Defined.

(** The order of the rounds matters: the strip of column 24 drawn
    before that of column 23 loses its left column to it, and columns 23
    and 24 differ in colour. *)
Example order_matters (pil : Pillow) :
  exists img,
    for_each [ 24; 23 ] (gradient_step pil) blank = Ok img
    /\ pixel img 24 0 = colour_of 23
    /\ colour_of 23 <> colour_of 24.
Proof.
  eexists. split; [| split].
  - simpl. rewrite !gradient_step_ok by lia. simpl. reflexivity.
  - reflexivity.
  - discriminate.
Qed.

(** ** Writes are clipped and keep the size *)

Lemma paint_size cover ink img :
  width (paint cover ink img) = width img /\ height (paint cover ink img) = height img.
Proof. split; reflexivity. Qed.

Lemma paint_outside cover ink img x y :
  inside img x y = false -> pixel (paint cover ink img) x y = pixel img x y.
Proof. intros H. simpl. rewrite H. reflexivity. Qed.

Lemma paint_uncovered cover ink img x y :
  cover x y = false -> pixel (paint cover ink img) x y = pixel img x y.
Proof. intros H. simpl. rewrite H, andb_false_r. reflexivity. Qed.

Lemma clipped_refl img : clipped img img.
Proof. repeat split. Qed.

Lemma clipped_paint cover ink img : clipped img (paint cover ink img).
Proof. repeat split. intros x y. apply paint_outside. Qed.

Lemma clipped_trans a b c : clipped a b -> clipped b c -> clipped a c.
Proof.
  intros (Hw1 & Hh1 & H1) (Hw2 & Hh2 & H2). repeat split; try congruence.
  intros x y Hxy. rewrite H2, H1; [reflexivity | assumption |].
  unfold inside in *. rewrite Hw1, Hh1. assumption.
Qed.

Lemma exec_clipped (pil : Pillow) (op : DrawOp) (img img' : Image) :
  exec pil op img = Ok img' -> clipped img img'.
Proof.
  destruct op as [b fill | b fill outline w | p q fill w | xy s fill anchor]; simpl.
  - destruct (getink fill); simpl; [| discriminate].
    destruct (check_box b); simpl; [| discriminate].
    intros [= <-]. apply clipped_paint.
  - unfold draw_ellipse.
    destruct (getinks fill outline) as [[f o] |]; simpl; [| discriminate].
    destruct (check_box b); simpl; [| discriminate].
    assert (H1 : clipped img
              match f with
              | Some ink =>
                  paint_solid (fun x y => in_bbox b x y && ellipse_cover pil b true 0 x y) ink img
              | None => img
              end).
    { destruct f; [apply clipped_paint | apply clipped_refl]. }
    destruct o as [ink |]; [| intros [= <-]; exact H1].
    destruct ((w =? 0) || _); intros [= <-]; [exact H1 |].
    eapply clipped_trans; [exact H1 | apply clipped_paint].
  - destruct (getink fill); simpl; [| discriminate].
    intros [= <-]. apply clipped_paint.
  - destruct (getink fill); simpl; [| discriminate].
    destruct (text_coverage pil xy s anchor); simpl; [| discriminate].
    intros [= <-]. apply clipped_paint.
Qed.

(** ** The icon and the caption *)

Lemma accent_ink : getink accent = Ok accent_rgb.
Proof. reflexivity. Qed.

Lemma icon_eq (pil : Pillow) (img : Image) :
  icon pil img =
    Ok (paint_solid
          (fun x y => in_bbox {| x0 := 165; y0 := 95; x1 := 185; y1 := 115 |} x y
                      && ellipse_cover pil {| x0 := 165; y0 := 95; x1 := 185; y1 := 115 |}
                           true 0 x y)
          accent_rgb
          (paint_solid
             (fun x y => in_bbox (line_box (175, 150) (175, 100) 3) x y
                         && line_cover pil (175, 150) (175, 100) 3 x y)
             accent_rgb
             (paint_solid
                (fun x y => in_bbox {| x0 := 120; y0 := 140; x1 := 180; y1 := 200 |} x y
                            && ellipse_cover pil
                                 {| x0 := 120; y0 := 140; x1 := 180; y1 := 200 |} false 2 x y)
                accent_rgb img))).
Proof. reflexivity. Qed.

(** The three icon calls complete and write inside their boxes. *)
Lemma icon_ok (pil : Pillow) (img : Image) :
  exists img', icon pil img = Ok img'
               /\ clipped img img'
               /\ forall x y, icon_area x y = false -> pixel img' x y = pixel img x y.
Proof.
  eexists. split; [apply icon_eq |]. split.
  - repeat (eapply clipped_trans; [| apply clipped_paint]). apply clipped_refl.
  - intros x y H. unfold icon_area in H. simpl in H.
    apply orb_false_elim in H as [H1 H]. apply orb_false_elim in H as [H2 H].
    apply orb_false_elim in H as [H3 _].
    unfold paint_solid.
    rewrite paint_uncovered by (rewrite H3; reflexivity).
    rewrite paint_uncovered by (rewrite H2; reflexivity).
    rewrite paint_uncovered by (rewrite H1; reflexivity).
    reflexivity.
Qed.

Lemma exec_caption (pil : Pillow) (img : Image) :
  exec pil caption_call img =
    (cov ← text_coverage pil (150, 230) "No Artwork" "mm";
     Ok (paint (fun x y => negb (cov x y =? 0))
               (fun x y under => blend pil (cov x y) accent_rgb under) img)).
Proof. reflexivity. Qed.

(** Whether the text call draws or raises, the caption step yields an
    image, and it differs from the one before on the glyphs only. *)
Lemma caption_ok (pil : Pillow) (img : Image) :
  clipped img (caption pil img)
  /\ forall x y, caption_area pil x y = false ->
       pixel (caption pil img) x y = pixel img x y.
Proof.
  unfold caption, caption_area. rewrite exec_caption.
  destruct (text_coverage pil (150, 230) "No Artwork" "mm") as [cov | e]; simpl.
  - split; [apply clipped_paint |]. intros x y H. rewrite H, andb_false_r. reflexivity.
  - split; [apply clipped_refl | reflexivity].
Qed.

Lemma before_caption_ok (pil : Pillow) :
  exists img, before_caption pil = Ok img
              /\ width img = 300 /\ height img = 300
              /\ forall x y, inside blank x y = true -> icon_area x y = false ->
                   pixel img x y = colour_of x.
Proof.
  destruct (gradient_pass_ok pil) as (g & Hg & Hw & Hh & Hpix).
  destruct (icon_ok pil g) as (img & Hi & (Hw' & Hh' & _) & Hframe).
  exists img. unfold before_caption. rewrite Hg. simpl.
  split; [exact Hi |]. split; [congruence |]. split; [congruence |].
  intros x y Hin Hicon. rewrite (Hframe x y Hicon), Hpix, Hin. reflexivity.
Qed.

(** The drawing part always completes: no call of the script raises
    past the [try]. *)
Lemma render_ok (pil : Pillow) :
  exists img, render pil = Ok img
              /\ width img = 300 /\ height img = 300
              /\ forall x y, inside blank x y = true -> icon_area x y = false ->
                   caption_area pil x y = false -> pixel img x y = colour_of x.
Proof.
  destruct (before_caption_ok pil) as (b & Hb & Hw & Hh & Hpix).
  destruct (caption_ok pil b) as ((Hw' & Hh' & _) & Hframe).
  exists (caption pil b). unfold render. rewrite Hb. simpl.
  split; [reflexivity |]. split; [congruence |]. split; [congruence |].
  intros x y Hin Hicon Hcap. rewrite (Hframe x y Hcap). apply Hpix; assumption.
Qed.

(** C3: in the final image, on every row, the pixel of column 0 that
    the caption does not cover is (23, 23, 27) and the pixel of column
    299 that the caption does not cover is (35, 35, 39), within one of
    (36, 36, 40) on each channel; the icon reaches neither column. *)
Theorem gradient_endpoints (pil : Pillow) :
  exists img,
    render pil = Ok img
    /\ forall y, 0 <= y < 300 ->
         icon_area 0 y = false /\ icon_area 299 y = false
         /\ (caption_area pil 0 y = false ->
               pixel img 0 y = (23, 23, 27)
               /\ within_one (pixel img 0 y) (23, 23, 27))
         /\ (caption_area pil 299 y = false ->
               pixel img 299 y = (35, 35, 39)
               /\ within_one (pixel img 299 y) (36, 36, 40)).
Proof.
  destruct (render_ok pil) as (img & Hrun & _ & _ & Hpix).
  exists img. split; [exact Hrun |]. intros y Hy.
  assert (Hin : forall x, 0 <= x < 300 -> inside blank x y = true).
  { intros x Hx. unfold inside. simpl. zbool; lia || reflexivity. }
  assert (H0 : icon_area 0 y = false) by reflexivity.
  assert (H299 : icon_area 299 y = false) by reflexivity.
  split; [exact H0 |]. split; [exact H299 |]. split; intros Hcap.
  - rewrite (Hpix 0 y (Hin 0 ltac:(lia)) H0 Hcap).
    change (colour_of 0) with (23, 23, 27). split; [reflexivity |].
    unfold within_one. lia.
  - rewrite (Hpix 299 y (Hin 299 ltac:(lia)) H299 Hcap).
    change (colour_of 299) with (35, 35, 39). split; [reflexivity |].
    unfold within_one. lia.
Qed.

Lemma gradient_endpoints_witness :
  exists img,
    render plain_pil = Ok img
    /\ pixel img 0 12 = (23, 23, 27)
    /\ within_one (pixel img 299 12) (36, 36, 40).
Proof.
  destruct (gradient_endpoints plain_pil) as (img & Hrun & H).
  destruct (H 12 ltac:(lia)) as (_ & _ & Hl & Hr).
  exists img. split; [exact Hrun |]. split.
  - exact (proj1 (Hl eq_refl)).
  - exact (proj2 (Hr eq_refl)).
Defined.

(** ** Coordinates of the calls *)

Lemma first_strip_issued : issued first_strip.
Proof. left. exists 0. split; [lia | reflexivity]. Qed.

(** C4 as stated fails on the first call of the gradient loop: it names
    the corner (1, 300), and 300 is not in [0, 300). *)
Lemma first_strip_out_of_bounds :
  issued first_strip /\ ~ Forall (within 0 300) (op_points first_strip).
Proof.
  split; [exact first_strip_issued |].
  intros H. apply Forall_cons_iff in H as [_ H]. apply Forall_cons_iff in H as [[_ H] _].
  simpl in H. lia.
Qed.

Lemma icon_caption_within (op : DrawOp) :
  In op icon_calls \/ op = caption_call -> Forall (within 0 300) (op_points op).
Proof.
  unfold icon_calls, caption_call.
  intros [[<- | [<- | [<- | []]]] | ->]; simpl;
    repeat (constructor; [unfold within; simpl; lia |]); constructor.
Qed.

(** C4, as the code has it: every call names coordinates in [0, 300]
    on both axes; the icon calls and the caption stay in [0, 300), while
    the rectangle of column [i] names (i, 0) and (i + 1, 300), one past
    the last row, and for the last column one past the last column too;
    every call writes inside the image only and keeps its size, which is
    300 by 300 after each part of the drawing. *)
Theorem drawing_calls_bounds (pil : Pillow) :
  (forall op, issued op -> Forall (within_closed 0 300) (op_points op))
  /\ (forall op, In op icon_calls \/ op = caption_call ->
        Forall (within 0 300) (op_points op))
  /\ (forall i op, 0 <= i < 300 -> gradient_call i = Ok op ->
        op_points op = [ (i, 0); (i + 1, 300) ])
  /\ (forall op img img', exec pil op img = Ok img' -> clipped img img')
  /\ exists a b c,
       gradient_pass pil = Ok a /\ before_caption pil = Ok b /\ render pil = Ok c
       /\ (width a = 300 /\ height a = 300)
       /\ (width b = 300 /\ height b = 300)
       /\ (width c = 300 /\ height c = 300).
Proof.
  split; [| split; [| split; [| split]]].
  - intros op [(i & Hi & Hcall) | H].
    + rewrite (gradient_call_ok i Hi) in Hcall. injection Hcall as <-. simpl.
      repeat (constructor; [unfold within_closed; simpl; lia |]). constructor.
    + apply icon_caption_within in H.
      eapply List.Forall_impl; [| exact H].
      unfold within, within_closed. intros p. lia.
  - exact icon_caption_within.
  - intros i op Hi Hcall. rewrite (gradient_call_ok i Hi) in Hcall.
    injection Hcall as <-. reflexivity.
  - apply exec_clipped.
  - destruct (gradient_pass_ok pil) as (a & Ha & Hwa & Hha & _).
    destruct (before_caption_ok pil) as (b & Hb & Hwb & Hhb & _).
    destruct (render_ok pil) as (c & Hc & Hwc & Hhc & _).
    exists a, b, c. auto 10.
Qed.

Lemma drawing_calls_bounds_witness :
  Forall (within_closed 0 300) (op_points first_strip)
  /\ op_points first_strip = [ (0, 0); (1, 300) ].
Proof.
  destruct (drawing_calls_bounds plain_pil) as (Hall & _ & Hgrad & _).
  split.
  - exact (Hall first_strip first_strip_issued).
  - exact (Hgrad 0 first_strip ltac:(lia) eq_refl).
Defined.

(** ** The caption's exception *)

(** C7: when the text call raises, the [try] swallows the exception:
    the image handed to [save] is the very image the icon calls left,
    and the script goes on with the save and the report on it. *)
Theorem caption_failure_swallowed (pil : Pillow) (file : string) (w : World) :
  exists img,
    before_caption pil = Ok img
    /\ forall e, exec pil caption_call img = Raise e ->
         caption pil img = img
         /\ render pil = Ok img
         /\ main pil file w = save_and_report pil file img w.
Proof.
  destruct (before_caption_ok pil) as (img & Hb & _).
  exists img. split; [exact Hb |]. intros e He.
  assert (Hcap : caption pil img = img) by (unfold caption; rewrite He; reflexivity).
  assert (Hr : render pil = Ok img) by (unfold render; rewrite Hb; simpl; congruence).
  split; [exact Hcap |]. split; [exact Hr |].
  unfold main. unfold mbind, Proc_bind, lift. rewrite Hr. reflexivity.
Qed.

Lemma caption_failure_swallowed_witness :
  exists img,
    before_caption bitmap_font_pil = Ok img
    /\ render bitmap_font_pil = Ok img
    /\ main bitmap_font_pil script_file stale_world
       = save_and_report bitmap_font_pil script_file img stale_world.
Proof.
  destruct (caption_failure_swallowed bitmap_font_pil script_file stale_world)
    as (img & Hb & H).
  exists img. split; [exact Hb |].
  exact (proj2 (H (ValueError "anchor not supported for non-TrueType fonts") eq_refl)).
Defined.

(** ** Writing a file *)

Lemma write_file_cases (path : string) (data : list Byte.byte) (f : FileSystem) :
  (writable path data f /\ write_file path data f = Ok (written path data f))
  \/ (~ writable path data f
      /\ exists kind, write_file path data f = Raise (OSError kind path)).
Proof.
  unfold write_file, writable.
  destruct (bool_decide_reflect (dirname path ∉ dirs f)) as [H1 | H1].
  { right. split; [tauto | eauto]. }
  apply dec_stable in H1.
  destruct (bool_decide_reflect (path ∈ dirs f)) as [H2 | H2].
  { right. split; [tauto | eauto]. }
  destruct (bool_decide_reflect (path ∈ readonly f)) as [H3 | H3]; simpl.
  { right. split; [tauto | eauto]. }
  destruct (bool_decide_reflect (files f !! path = None)) as [H4 | H4]; simpl.
  - destruct (bool_decide_reflect (dirname path ∈ readonly f)) as [H5 | H5]; simpl.
    { right. split; [tauto | eauto]. }
    destruct (room f path (Z.of_nat (length data))) eqn:H6; simpl.
    + left. repeat split; tauto.
    + right. split; [intros (_ & _ & _ & _ & H); discriminate | eauto].
  - destruct (room f path (Z.of_nat (length data))) eqn:H6; simpl.
    + left. repeat split; tauto.
    + right. split; [intros (_ & _ & _ & _ & H); discriminate | eauto].
Qed.

Lemma write_file_ok (path : string) (data : list Byte.byte) (f f' : FileSystem) :
  write_file path data f = Ok f' -> writable path data f /\ f' = written path data f.
Proof.
  intros H. destruct (write_file_cases path data f) as [[Hw Hr] | [_ [k Hr]]];
    rewrite Hr in H; [| discriminate].
  split; [exact Hw | congruence].
Qed.

(** A missing directory, a refused permission and a full volume. *)
Lemma write_file_errors (path : string) (data : list Byte.byte) (f : FileSystem) :
  (dirname path ∉ dirs f -> write_file path data f = Raise (OSError ENOENT path))
  /\ (dirname path ∈ dirs f -> path ∉ dirs f -> path ∈ readonly f ->
        write_file path data f = Raise (OSError EACCES path))
  /\ (dirname path ∈ dirs f -> path ∉ dirs f -> path ∉ readonly f ->
        (files f !! path = None -> dirname path ∉ readonly f) ->
        room f path (Z.of_nat (length data)) = false ->
        write_file path data f = Raise (OSError ENOSPC path)).
Proof.
  unfold write_file. repeat split.
  - intros H. rewrite bool_decide_eq_true_2 by assumption. reflexivity.
  - intros H1 H2 H3.
    rewrite (bool_decide_eq_false_2 (dirname path ∉ dirs f)) by tauto.
    rewrite (bool_decide_eq_false_2 (path ∈ dirs f)) by assumption.
    rewrite (bool_decide_eq_true_2 (path ∈ readonly f)) by assumption. reflexivity.
  - intros H1 H2 H3 H4 H5.
    rewrite (bool_decide_eq_false_2 (dirname path ∉ dirs f)) by tauto.
    rewrite (bool_decide_eq_false_2 (path ∈ dirs f)) by assumption.
    rewrite (bool_decide_eq_false_2 (path ∈ readonly f)) by assumption. simpl.
    destruct (bool_decide_reflect (files f !! path = None)) as [H6 | H6]; simpl.
    + rewrite (bool_decide_eq_false_2 (dirname path ∈ readonly f)) by auto.
      rewrite H5. reflexivity.
    + rewrite H5. reflexivity.
Qed.

(** ** Save and report *)

Lemma created_line_not_ascii (path : string) : is_ascii (created_line path) = false.
Proof. reflexivity. Qed.

Lemma print_ok (s : string) (w : World) :
  encoding (stdout_stream w) = UTF8 -> takes_writes (stdout_stream w) = true ->
  print s w = Done tt (put_line s w).
Proof.
  intros He Hd. unfold print, takes_writes in *. rewrite He. simpl.
  destruct (device (stdout_stream w)); [reflexivity | discriminate | reflexivity].
Qed.

Lemma save_and_report_ok (pil : Pillow) (file : string) (img : Image) (w : World)
    (f : FileSystem) :
  write_file (output_path file) (png_of pil img) (fs w) = Ok f ->
  encoding (stdout_stream w) = UTF8 -> takes_writes (stdout_stream w) = true ->
  save_and_report pil file img w =
    Done tt (finished f (output_path file) (Z.of_nat (length (png_of pil img))) w).
Proof.
  intros H He Hd. pose proof (write_file_ok _ _ _ _ H) as [_ ->].
  unfold save_and_report, mbind, Proc_bind, save, getsize.
  fold (png_of pil img). rewrite H.
  rewrite print_ok by assumption. cbn [put_line set_fs fs files written].
  rewrite lookup_insert_eq. rewrite print_ok by assumption.
  unfold finished, put_line. cbn [fs stdout stdout_stream]. rewrite <- app_assoc. reflexivity.
Qed.

Lemma save_and_report_raise (pil : Pillow) (file : string) (img : Image) (w : World)
    (e : Exn) :
  write_file (output_path file) (png_of pil img) (fs w) = Raise e ->
  save_and_report pil file img w = Uncaught e (stdout w).
Proof.
  intros H. unfold save_and_report, mbind, Proc_bind, save.
  fold (png_of pil img). rewrite H. reflexivity.
Qed.

(** After a successful save the first [print] raises when the stream
    cannot encode the check mark or its device fails the write. *)
Lemma save_and_report_print_fails (pil : Pillow) (file : string) (img : Image)
    (w : World) (f : FileSystem) :
  write_file (output_path file) (png_of pil img) (fs w) = Ok f ->
  (encoding (stdout_stream w) = ASCII ->
   save_and_report pil file img w
   = Uncaught (UnicodeEncodeError (created_line (output_path file))) (stdout w))
  /\ (forall kind, encoding (stdout_stream w) = UTF8 ->
        device (stdout_stream w) = FailsOnWrite kind ->
        save_and_report pil file img w = Uncaught (OSError kind "<stdout>") (stdout w)).
Proof.
  intros H. unfold save_and_report, mbind, Proc_bind, save.
  fold (png_of pil img). rewrite H. unfold print. cbn [set_fs stdout_stream stdout].
  split.
  - intros He. rewrite He. reflexivity.
  - intros kind He Hd. rewrite He, Hd. reflexivity.
Qed.

Lemma main_eq (pil : Pillow) (file : string) (w : World) (img : Image) :
  render pil = Ok img -> main pil file w = save_and_report pil file img w.
Proof. intros H. unfold main, mbind, Proc_bind, lift. rewrite H. reflexivity. Qed.

(** A run that completes went through a successful write of the
    rendered image and two successful prints. *)
Lemma main_done (pil : Pillow) (file : string) (w w' : World) :
  main pil file w = Done tt w' ->
  exists img,
    render pil = Ok img /\ width img = 300 /\ height img = 300
    /\ writable (output_path file) (png_of pil img) (fs w)
    /\ encoding (stdout_stream w) = UTF8 /\ takes_writes (stdout_stream w) = true
    /\ w' = finished (written (output_path file) (png_of pil img) (fs w))
                     (output_path file) (Z.of_nat (length (png_of pil img))) w.
Proof.
  intros H. destruct (render_ok pil) as (img & Hr & Hw & Hh & _).
  exists img. rewrite (main_eq pil file w img Hr) in H.
  destruct (write_file (output_path file) (png_of pil img) (fs w)) as [f | e] eqn:Hwf.
  - destruct (save_and_report_print_fails pil file img w f Hwf) as [Hascii Hdev].
    destruct (encoding (stdout_stream w)) eqn:He;
      [| rewrite (Hascii eq_refl) in H; discriminate].
    destruct (device (stdout_stream w)) as [| kind | kind] eqn:Hd;
      [| rewrite (Hdev kind eq_refl eq_refl) in H; discriminate |].
    + rewrite (save_and_report_ok _ _ _ _ _ Hwf He) in H
        by (unfold takes_writes; rewrite Hd; reflexivity).
      injection H as <-. apply write_file_ok in Hwf as [Hable ->].
      unfold takes_writes. rewrite Hd. auto 10.
    + rewrite (save_and_report_ok _ _ _ _ _ Hwf He) in H
        by (unfold takes_writes; rewrite Hd; reflexivity).
      injection H as <-. apply write_file_ok in Hwf as [Hable ->].
      unfold takes_writes. rewrite Hd. auto 10.
  - rewrite (save_and_report_raise _ _ _ _ _ Hwf) in H. discriminate.
Qed.

Lemma main_succeeds (pil : Pillow) (file : string) (w : World) (img : Image) :
  render pil = Ok img ->
  writable (output_path file) (png_of pil img) (fs w) ->
  encoding (stdout_stream w) = UTF8 -> takes_writes (stdout_stream w) = true ->
  main pil file w =
    Done tt (finished (written (output_path file) (png_of pil img) (fs w))
                      (output_path file) (Z.of_nat (length (png_of pil img))) w).
Proof.
  intros Hr Hable He Hd. rewrite (main_eq pil file w img Hr).
  apply save_and_report_ok; [| exact He | exact Hd].
  destruct (write_file_cases (output_path file) (png_of pil img) (fs w))
    as [[_ H] | [H _]]; [exact H | contradiction].
Qed.

(** ** The output path *)

Lemma append_assoc (a b c : string) : ((a ++ b) ++ c = a ++ b ++ c)%string.
Proof.
  induction a as [| x a IH]; [reflexivity |].
  change (String x ((a ++ b) ++ c) = String x (a ++ b ++ c))%string. f_equal. exact IH.
Qed.

Lemma ends_with_sep_app (a : string) (c : ascii) (r : string) :
  ends_with_sep (a ++ String c r) = ends_with_sep (String c r).
Proof.
  induction a as [| x a IH]; [reflexivity |].
  change (ends_with_sep (String x (a ++ String c r)) = ends_with_sep (String c r)).
  rewrite <- IH. simpl. destruct (a ++ String c r)%string eqn:E; [| reflexivity].
  destruct a; discriminate.
Qed.

Lemma join2_app (a : string) (c : ascii) (r b : string) :
  starts_with_sep b = false ->
  join2 (a ++ String c r) b = (a ++ join2 (String c r) b)%string.
Proof.
  intros Hb. unfold join2. rewrite Hb, ends_with_sep_app.
  replace (String.eqb (a ++ String c r) "") with false by (destruct a; reflexivity).
  change (String.eqb (String c r) "") with false.
  generalize (ends_with_sep (String c r)). intros [|]; apply append_assoc.
Qed.

Lemma join2_joint (dir b : string) :
  starts_with_sep b = false -> join2 dir b = (dir ++ joint dir ++ b)%string.
Proof.
  intros Hb. unfold join2, joint. rewrite Hb.
  destruct (String.eqb dir "" || ends_with_sep dir); reflexivity.
Qed.

(** The path is the directory of the script, a separator unless the
    directory is empty or ends in one, and the fixed relative path. *)
Lemma output_path_eq (file : string) :
  output_path file =
    (dirname file ++ joint (dirname file) ++ "../public/img/placeholder-new.png")%string.
Proof.
  unfold output_path, path_join. simpl fold_left.
  rewrite (join2_joint (dirname file) "..") by reflexivity.
  rewrite <- (append_assoc (dirname file)).
  rewrite join2_app by reflexivity.
  change (join2 ".." "public") with "../public"%string.
  rewrite join2_app by reflexivity.
  change (join2 "../public" "img") with "../public/img"%string.
  rewrite join2_app by reflexivity.
  rewrite append_assoc. reflexivity.
Qed.

Lemma output_path_script : output_path script_file = (img_dir ++ "/placeholder-new.png")%string.
Proof. reflexivity. Qed.

(** ** Exit status *)

(** ** A run on the stale world *)

Lemma length_tobytes (img : Image) :
  length (tobytes img) = (Z.to_nat (height img) * Z.to_nat (width img))%nat.
Proof.
  unfold tobytes.
  assert (Hrow : forall y, length (row img y) = Z.to_nat (width img)).
  { intros y. unfold row, range. rewrite !length_map, length_seq. reflexivity. }
  assert (H : forall l, length (concat (map (row img) l))
                        = (length l * Z.to_nat (width img))%nat).
  { induction l as [| y l IH]; [reflexivity |].
    simpl. rewrite length_app, Hrow, IH. reflexivity. }
  rewrite H. unfold range. rewrite length_map, length_seq. reflexivity.
Qed.

Lemma plain_image_rendered : render plain_pil = Ok plain_image.
Proof.
  destruct (render_ok plain_pil) as (img & Hr & _).
  unfold plain_image. rewrite Hr. reflexivity.
Qed.

Lemma plain_image_size : Z.of_nat (length (png_of plain_pil plain_image)) = 90008.
Proof.
  destruct (render_ok plain_pil) as (img & Hr & Hw & Hh & _).
  assert (Himg : plain_image = img) by (unfold plain_image; rewrite Hr; reflexivity).
  rewrite Himg.
  change (png_of plain_pil img)
    with (png_signature ++ map (fun _ : RGB => Byte.x00) (tobytes img)).
  rewrite length_app, length_map, length_tobytes, Hw, Hh. reflexivity.
Qed.

Lemma stale_writable :
  writable (output_path script_file) (png_of plain_pil plain_image) stale_fs.
Proof.
  unfold writable. rewrite plain_image_size. cbn [stale_fs dirs readonly files room].
  split; [| split; [| split; [| split]]].
  - apply elem_of_singleton. reflexivity.
  - intros H. apply elem_of_singleton in H. vm_compute in H. discriminate.
  - apply not_elem_of_empty.
  - intros _. apply not_elem_of_empty.
  - reflexivity.
Qed.

Lemma stale_run : main plain_pil script_file stale_world = Done tt fresh_world.
Proof.
  exact (main_succeeds plain_pil script_file stale_world plain_image
           plain_image_rendered stale_writable eq_refl eq_refl).
Qed.





(** ** The written file *)

(** C8: a run that completes has written the rendered 300 by 300 image,
    encoded as PNG with [optimize] set, at
    [<dirname(__file__)>/../public/img/placeholder-new.png]; the file
    holds these bytes whatever it held before, and no other file or
    directory has changed. *)
Theorem save_writes_one_file (pil : Pillow) (file : string) (w w' : World) :
  main pil file w = Done tt w' ->
  exists img,
    render pil = Ok img /\ width img = 300 /\ height img = 300
    /\ output_path file =
         (dirname file ++ joint (dirname file) ++ "../public/img/placeholder-new.png")%string
    /\ files (fs w') !! output_path file = Some (encode pil "PNG" true 300 300 (tobytes img))
    /\ (forall p, p <> output_path file -> files (fs w') !! p = files (fs w) !! p)
    /\ dirs (fs w') = dirs (fs w)
    /\ readonly (fs w') = readonly (fs w).
Proof.
  intros H. destruct (main_done pil file w w' H) as (img & Hr & Hw & Hh & _ & _ & _ & ->).
  exists img. split; [exact Hr |]. split; [exact Hw |]. split; [exact Hh |].
  split; [apply output_path_eq |]. cbn [finished fs files written dirs readonly].
  split; [| split; [| split; reflexivity]].
  - rewrite lookup_insert_eq. unfold png_of. rewrite Hw, Hh. reflexivity.
  - intros p Hp. apply lookup_insert_ne. congruence.
Qed.

Lemma save_writes_one_file_witness :
  exists img,
    render plain_pil = Ok img
    /\ files (fs fresh_world) !! output_path script_file
       = Some (encode plain_pil "PNG" true 300 300 (tobytes img))
    /\ files (fs fresh_world) !! "/srv/app/README.md"%string
       = files (fs stale_world) !! "/srv/app/README.md"%string.
Proof.
  destruct (save_writes_one_file plain_pil script_file stale_world fresh_world stale_run)
    as (img & Hr & _ & _ & _ & Hfile & Hother & _).
  exists img. split; [exact Hr |]. split; [exact Hfile |].
  apply Hother. intros H. vm_compute in H. discriminate.
Defined.

(** ** The lines printed *)

(** C9: the first line a completed run prints is the confirmation
    followed by the output path, the path under which the file was
    written. *)
Theorem first_line_names_output (pil : Pillow) (file : string) (w w' : World) :
  main pil file w = Done tt w' ->
  exists data second,
    files (fs w') !! output_path file = Some data
    /\ stdout w' =
         stdout w ++ [ ("✓ Created optimized placeholder: " ++ output_path file)%string;
                       second ].
Proof.
  intros H. destruct (main_done pil file w w' H) as (img & _ & _ & _ & _ & _ & _ & ->).
  exists (png_of pil img), (size_line (Z.of_nat (length (png_of pil img)))).
  cbn [finished fs files written stdout]. split; [apply lookup_insert_eq | reflexivity].
Qed.

Lemma first_line_names_output_witness :
  exists data second,
    files (fs fresh_world) !! output_path script_file = Some data
    /\ stdout fresh_world =
         [ "✓ Created optimized placeholder: /srv/app/scripts/../public/img/placeholder-new.png"%string;
           second ].
Proof.
  exact (first_line_names_output plain_pil script_file stale_world fresh_world stale_run).
Defined.

(** ** Floating point: the size in kilobytes *)

Lemma digits2_pos_bounds (p : positive) :
  2 ^ (Z.pos (digits2_pos p) - 1) <= Z.pos p < 2 ^ Z.pos (digits2_pos p).
Proof.
  induction p as [p IH | p IH |]; simpl digits2_pos; [| | simpl; lia];
    rewrite Pos2Z.inj_succ, Z.pow_succ_r by lia;
    replace (Z.succ (Z.pos (digits2_pos p)) - 1)
      with (Z.succ (Z.pos (digits2_pos p) - 1)) by lia;
    rewrite Z.pow_succ_r by lia; lia.
Qed.

Lemma digits2_pos_iter (p k : positive) :
  digits2_pos (Pos.iter xO p k) = (digits2_pos p + k)%positive.
Proof.
  induction k as [| k IH] using Pos.peano_ind.
  - simpl. lia.
  - rewrite Pos.iter_succ. simpl. rewrite IH. lia.
Qed.

Lemma Zpos_iter_xO (p k : positive) : Z.pos (Pos.iter xO p k) = Z.pos p * 2 ^ Z.pos k.
Proof.
  induction k as [| k IH] using Pos.peano_ind.
  - simpl. lia.
  - rewrite Pos.iter_succ, Pos2Z.inj_xO, IH, Pos2Z.inj_succ, Z.pow_succ_r by lia. lia.
Qed.

(** A mantissa of 53 digits with an exponent in range is its own rounding. *)
Lemma round_canonical (s : bool) (m : positive) (e : Z) :
  digits2_pos m = 53%positive -> -1074 <= e <= 971 ->
  binary_round_aux prec emax s (Z.pos m) e loc_Exact = S754_finite s m e.
Proof.
  intros Hd He. unfold binary_round_aux, shr_fexp, Zdigits2. rewrite Hd.
  replace (fexp prec emax (53 + e) - e) with 0 by (unfold fexp, emin, prec, emax; lia).
  cbn [shr shr_record_of_loc shr_m loc_of_shr_record round_nearest_even].
  unfold Zdigits2. rewrite Hd.
  replace (fexp prec emax (53 + e) - e) with 0 by (unfold fexp, emin, prec, emax; lia).
  cbn [shr shr_record_of_loc shr_m].
  destruct (Z.leb_spec e (emax - prec)) as [_ | H]; [reflexivity |].
  unfold emax, prec in H. lia.
Qed.

Lemma digits_le_53 (p : positive) : Z.pos p < 2 ^ 53 -> Z.pos (digits2_pos p) <= 53.
Proof.
  intros H. pose proof (digits2_pos_bounds p) as [Hlo _].
  destruct (Z.le_gt_cases (Z.pos (digits2_pos p)) 53) as [Hle | Hgt]; [exact Hle |].
  assert (2 ^ 53 <= 2 ^ (Z.pos (digits2_pos p) - 1)) by (apply Z.pow_le_mono_r; lia).
  lia.
Qed.

Lemma mantissa53_digits (p : positive) :
  Z.pos p < 2 ^ 53 -> digits2_pos (mantissa53 p) = 53%positive.
Proof.
  intros H. pose proof (digits_le_53 p H) as Hd. unfold mantissa53.
  destruct (Z.pos (digits2_pos p) - 53) as [| k | k] eqn:E; try lia.
  rewrite digits2_pos_iter. lia.
Qed.

Lemma mantissa53_value (p : positive) :
  Z.pos p < 2 ^ 53 ->
  Z.pos (mantissa53 p) = Z.pos p * 2 ^ (53 - Z.pos (digits2_pos p)).
Proof.
  intros H. pose proof (digits_le_53 p H) as Hd. unfold mantissa53.
  destruct (Z.pos (digits2_pos p) - 53) as [| k | k] eqn:E; try lia.
  - replace (53 - Z.pos (digits2_pos p)) with 0 by lia. lia.
  - rewrite Zpos_iter_xO. f_equal. f_equal. lia.
Qed.

(** [float(n)] for [0 < n < 2^53]: no bit is lost. *)
Lemma of_int_exact (p : positive) :
  Z.pos p < 2 ^ 53 ->
  Prim2SF (PyFloat.of_int (Z.pos p)) = S754_finite false (mantissa53 p) (Z.pos (digits2_pos p) - 53).
Proof.
  intros H. pose proof (digits_le_53 p H) as Hd.
  unfold PyFloat.of_int. rewrite FloatAxioms.of_uint63_spec, Uint63.of_Z_spec.
  rewrite Z.mod_small by (change Uint63.wB with (2 ^ 63); split; [lia |];
    apply Z.lt_trans with (2 ^ 53); [exact H | reflexivity]).
  unfold binary_normalize, binary_round, shl_align.
  replace (fexp prec emax (Z.pos (digits2_pos p) + 0)) with (Z.pos (digits2_pos p) - 53)
    by (unfold fexp, emin, prec, emax; lia).
  rewrite Z.sub_0_r.
  pose proof (mantissa53_digits p H) as Hm. unfold mantissa53 in *.
  destruct (Z.pos (digits2_pos p) - 53) as [| k | k] eqn:E; try lia.
  - rewrite round_canonical; [| exact Hm | lia]. reflexivity.
  - rewrite round_canonical; [| exact Hm | lia]. reflexivity.
Qed.

Lemma div_eucl_pair (a b : Z) : Z.div_eucl a b = (a / b, a mod b).
Proof. unfold Z.div, Z.modulo. destruct (Z.div_eucl a b). reflexivity. Qed.

(** Dividing a 53-digit mantissa by 2^10 lowers the exponent by ten. *)
Lemma div_1024_exact (m : positive) (e : Z) :
  digits2_pos m = 53%positive -> -52 <= e <= 0 ->
  SF64div (S754_finite false m e) (S754_finite false 4503599627370496 (-42))
  = S754_finite false m (e - 10).
Proof.
  intros Hd He. unfold SF64div, SFdiv, SFdiv_core_binary, Zdigits2. rewrite Hd.
  change (Z.pos (digits2_pos 4503599627370496)) with 53.
  replace (Z.min (fexp prec emax (53 + e - (53 + -42))) (e - -42)) with (e - 11)
    by (unfold fexp, emin, prec, emax; lia).
  replace (e - -42 - (e - 11)) with 53 by lia.
  rewrite div_eucl_pair, Z.shiftl_mul_pow2 by lia.
  replace (Z.pos m * 2 ^ 53) with (Z.pos m~0 * 4503599627370496) by lia.
  rewrite Z.div_mul, Z.mod_mul by lia.
  change (new_location 4503599627370496 0) with loc_Exact.
  cbn [xorb].
  unfold binary_round_aux, shr_fexp, Zdigits2.
  change (digits2_pos m~0) with (Pos.succ (digits2_pos m)). rewrite Hd.
  change (Z.pos (Pos.succ 53)) with 54.
  replace (fexp prec emax (54 + (e - 11)) - (e - 11)) with 1
    by (unfold fexp, emin, prec, emax; lia).
  cbn [shr shr_record_of_loc SpecFloat.iter_pos shr_1 orb shr_m loc_of_shr_record round_nearest_even].
  unfold Zdigits2. rewrite Hd.
  replace (fexp prec emax (53 + (e - 11 + 1)) - (e - 11 + 1)) with 0
    by (unfold fexp, emin, prec, emax; lia).
  cbn [shr shr_m].
  destruct (Z.leb_spec (e - 11 + 1) (emax - prec)) as [_ | H];
    [f_equal; lia | unfold emax, prec in H; lia].
Qed.

Lemma truediv_1024_exact (p : positive) :
  Z.pos p < 2 ^ 53 ->
  Prim2SF (PyFloat.truediv (Z.pos p) 1024)
  = S754_finite false (mantissa53 p) (Z.pos (digits2_pos p) - 63).
Proof.
  intros H. unfold PyFloat.truediv. rewrite FloatAxioms.div_spec, (of_int_exact p H).
  change (Prim2SF (PyFloat.of_int 1024)) with (S754_finite false 4503599627370496 (-42)).
  pose proof (digits_le_53 p H).
  rewrite div_1024_exact; [f_equal; lia | apply mantissa53_digits; exact H | lia].
Qed.

Lemma round_half_even_scale (a b c : Z) :
  0 < b -> 0 < c -> round_half_even (a * c) (b * c) = round_half_even a b.
Proof.
  intros Hb Hc. unfold round_half_even.
  rewrite Z.div_mul_cancel_r, Z.mul_mod_distr_r by lia.
  assert (0 <= a mod b < b) by (apply Z.mod_pos_bound; lia).
  destruct (Z.ltb_spec (2 * (a mod b * c)) (b * c)), (Z.ltb_spec (2 * (a mod b)) b);
    try nia; try reflexivity.
  destruct (Z.ltb_spec (b * c) (2 * (a mod b * c))), (Z.ltb_spec b (2 * (a mod b)));
    try nia; reflexivity.
Qed.

Lemma round_half_even_nearest (num den : Z) :
  0 < den -> 2 * Z.abs (num - den * round_half_even num den) <= den.
Proof.
  intros Hden. unfold round_half_even.
  pose proof (Z.div_mod num den ltac:(lia)) as Hdm.
  assert (0 <= num mod den < den) by (apply Z.mod_pos_bound; lia).
  destruct (Z.ltb_spec (2 * (num mod den)) den);
    [| destruct (Z.ltb_spec den (2 * (num mod den))); [| destruct (Z.even (num / den))]];
    lia.
Qed.

(** The size divided by 1024 is exact in binary64, so the digits printed
    are those of the exact quotient rounded to a tenth. *)
Lemma format_1f_size (n : Z) :
  0 <= n < 2 ^ 53 -> format_1f (PyFloat.truediv n 1024) = one_decimal n 1024.
Proof.
  intros [Hlo Hhi]. destruct n as [| p | p]; [reflexivity | | lia].
  pose proof (digits_le_53 p Hhi) as Hd.
  unfold format_1f, one_decimal. rewrite (truediv_1024_exact p Hhi).
  destruct (Z.leb_spec 0 (Z.pos (digits2_pos p) - 63)) as [H | _]; [lia |].
  rewrite (mantissa53_value p Hhi).
  replace (- (Z.pos (digits2_pos p) - 63)) with (10 + (53 - Z.pos (digits2_pos p))) by lia.
  rewrite Z.pow_add_r by lia. rewrite Z.mul_assoc.
  rewrite round_half_even_scale; [reflexivity | lia |].
  apply Z.pow_pos_nonneg; lia.
Qed.

Example format_1f_samples :
  map (fun n => format_1f (PyFloat.truediv n 1024)) [ 0; 51; 52; 256; 768; 1485; 4613734 ]
  = [ "0.0"; "0.0"; "0.1"; "0.2"; "0.8"; "1.5"; "4505.6" ]%string.
Proof. vm_compute. reflexivity. Qed.

Lemma fresh_size : Z.of_nat (length (png_of plain_pil plain_image)) = 90008.
Proof. exact plain_image_size. Qed.

(** C5: the second line a completed run prints is [✓ Size: ], the
    size of the written file divided by 1024 and formatted with [.1f],
    and the literal [KB (was 4.4MB)]; for a file below 2^53 bytes the
    digits are those of the tenth nearest to the exact quotient. *)
Theorem size_line_format (pil : Pillow) (file : string) (w w' : World) :
  main pil file w = Done tt w' ->
  exists data first,
    files (fs w') !! output_path file = Some data
    /\ stdout w' =
         stdout w ++
           [ first;
             ("✓ Size: " ++ format_1f (PyFloat.truediv (Z.of_nat (length data)) 1024)
                ++ "KB (was 4.4MB)")%string ]
    /\ (Z.of_nat (length data) < 2 ^ 53 ->
        exists t,
          format_1f (PyFloat.truediv (Z.of_nat (length data)) 1024)
            = (dec (t / 10) ++ "." ++ dec (t mod 10))%string
          /\ t = round_half_even (10 * Z.of_nat (length data)) 1024
          /\ 2 * Z.abs (10 * Z.of_nat (length data) - 1024 * t) <= 1024).
Proof.
  intros H. destruct (main_done pil file w w' H) as (img & _ & _ & _ & _ & _ & _ & ->).
  exists (png_of pil img), (created_line (output_path file)).
  cbn [finished fs files written stdout]. split; [apply lookup_insert_eq |].
  split; [reflexivity |]. intros Hsize.
  exists (round_half_even (10 * Z.of_nat (length (png_of pil img))) 1024).
  split; [| split; [reflexivity |]].
  - apply format_1f_size. lia.
  - apply round_half_even_nearest. lia.
Qed.

Lemma size_line_format_witness :
  exists first, stdout fresh_world = [ first; "✓ Size: 87.9KB (was 4.4MB)"%string ].
Proof.
  destruct (size_line_format plain_pil script_file stale_world fresh_world stale_run)
    as (data & first & Hfile & Hout & _).
  exists first.
  assert (Hdata : data = png_of plain_pil plain_image).
  { cbn [fresh_world fs files written] in Hfile.
    rewrite lookup_insert_eq in Hfile. congruence. }
  rewrite Hdata, fresh_size in Hout. exact Hout.
Defined.

(** ** Running again *)

Lemma writable_again (path : string) (data : list Byte.byte) (f : FileSystem) :
  writable path data f -> writable path data (written path data f).
Proof.
  intros (H1 & H2 & H3 & H4 & H5). unfold writable.
  cbn [written dirs readonly files room].
  repeat (split; [assumption |]). split; [| assumption].
  rewrite lookup_insert_eq. discriminate.
Qed.

Lemma written_again (path : string) (data : list Byte.byte) (f : FileSystem) :
  written path data (written path data f) = written path data f.
Proof.
  unfold written. cbn [dirs files readonly room].
  rewrite insert_insert_eq. reflexivity.
Qed.

(** C1: the bytes written do not depend on the world the script starts
    in, nor on where the script lies: two completed runs with the same
    backend leave the same bytes, the encoding of the one rendered image,
    at their output paths; and running again on the world a run ended
    in completes and leaves the file system as it was. *)
Theorem runs_agree (pil : Pillow) (file_a file_b : string) (wa wb wa' wb' : World) :
  main pil file_a wa = Done tt wa' ->
  main pil file_b wb = Done tt wb' ->
  (exists img,
     render pil = Ok img
     /\ files (fs wa') !! output_path file_a = Some (png_of pil img)
     /\ files (fs wb') !! output_path file_b = Some (png_of pil img))
  /\ exists wa'', main pil file_a wa' = Done tt wa'' /\ fs wa'' = fs wa'.
Proof.
  intros Ha Hb.
  destruct (main_done pil file_a wa wa' Ha) as (img & Hr & _ & _ & Hable & He & Hd & ->).
  destruct (main_done pil file_b wb wb' Hb) as (img' & Hr' & _ & _ & _ & _ & _ & ->).
  assert (img' = img) by congruence. subst img'.
  split.
  - exists img. cbn [finished fs files written]. rewrite !lookup_insert_eq. auto.
  - eexists. split.
    + apply (main_succeeds pil file_a _ img Hr); cbn [finished fs stdout_stream];
        [apply writable_again; exact Hable | exact He | exact Hd].
    + cbn [finished fs]. apply written_again.
Qed.

Lemma fresh_run : main plain_pil script_file fresh_world = Done tt second_world.
Proof.
  rewrite (main_succeeds plain_pil script_file fresh_world plain_image
             plain_image_rendered).
  - unfold second_world, finished, fresh_world. cbn [fs stdout stdout_stream].
    rewrite written_again. reflexivity.
  - unfold fresh_world. cbn [fs]. apply writable_again. exact stale_writable.
  - reflexivity.
  - reflexivity.
Qed.

Lemma runs_agree_witness :
  files (fs fresh_world) !! output_path script_file
  = files (fs second_world) !! output_path script_file
  /\ exists w, main plain_pil script_file fresh_world = Done tt w /\ fs w = fs fresh_world.
Proof.
  destruct (runs_agree plain_pil script_file script_file stale_world fresh_world
              fresh_world second_world stale_run fresh_run)
    as ((img & _ & Ha & Hb) & Hagain).
  split; [congruence | exact Hagain].
Defined.

(** * Further properties of the script *)

(** ** The gray levels *)

Lemma gray_level_mono (i j : Z) : i <= j -> gray_level i <= gray_level j.
Proof.
  intros H. unfold gray_level.
  assert (13 * i / 300 <= 13 * j / 300) by (apply Z.div_le_mono; lia). lia.
Qed.

Lemma gray_level_step (i : Z) : gray_level (i + 1) - gray_level i <= 1.
Proof.
  unfold gray_level.
  pose proof (Z.div_mod (13 * i) 300 ltac:(lia)) as H1.
  pose proof (Z.mod_pos_bound (13 * i) 300 ltac:(lia)) as H2.
  assert (13 * (i + 1) / 300 < 13 * i / 300 + 2); [| lia].
  apply Z.div_lt_upper_bound; lia.
Qed.

(** X1: The values line 12 computes along the loop: defined on every
    column, between 23 and 35, never decreasing from left to right,
    rising by at most one from a column to the next, and small enough
    for the blue channel [v + 4] to fit a byte. *)
Theorem color_val_ramp (i j : Z) :
  0 <= i -> i <= j -> j < 300 ->
  exists vi vj,
    color_val i = Ok vi /\ color_val j = Ok vj
    /\ 23 <= vi /\ vi <= vj /\ vj <= 35
    /\ (j = i + 1 -> vj - vi <= 1)
    /\ 0 <= vi + 4 /\ vj + 4 <= 255.
Proof.
  intros Hi Hij Hj. exists (gray_level i), (gray_level j).
  pose proof (gray_level_bounds i ltac:(lia)).
  pose proof (gray_level_bounds j ltac:(lia)).
  pose proof (gray_level_mono i j Hij).
  split; [apply color_val_exact; lia |]. split; [apply color_val_exact; lia |].
  repeat (split; [lia |]). split; [| lia].
  intros ->. apply gray_level_step.
Qed.

Lemma color_val_ramp_witness :
  exists vi vj, color_val 23 = Ok vi /\ color_val 24 = Ok vj /\ vi <= vj /\ vj - vi <= 1.
Proof.
  destruct (color_val_ramp 23 24 ltac:(lia) ltac:(lia) ltac:(lia))
    as (vi & vj & Hi & Hj & _ & Hle & _ & Hstep & _).
  exists vi, vj. repeat (split; [assumption |]). apply Hstep. reflexivity.
Defined.

(** X2: The comment of line 12 announces a gradient from #17181c to
    #24262c.  After the gradient pass every pixel of the image is a gray
    [(v, v, v + 4)] with [v] from 23 to 35, so it is neither
    #17181c = (23, 24, 28), which is also the fill colour of line 7, nor
    #24262c = (36, 38, 44). *)
Theorem gradient_misses_comment_colours (pil : Pillow) :
  exists img,
    gradient_pass pil = Ok img
    /\ forall x y, inside img x y = true ->
         (exists v, 23 <= v <= 35 /\ pixel img x y = (v, v, v + 4))
         /\ getrgb "#17181c" = Ok (23, 24, 28) /\ pixel img x y <> (23, 24, 28)
         /\ getrgb "#24262c" = Ok (36, 38, 44) /\ pixel img x y <> (36, 38, 44).
Proof.
  destruct (gradient_pass_ok pil) as (img & Hrun & Hw & Hh & Hpix).
  exists img. split; [exact Hrun |]. intros x y Hin.
  assert (Hin' : inside blank x y = true) by (unfold inside in *; rewrite Hw, Hh in Hin; exact Hin).
  assert (Hx : 0 <= x < 300).
  { unfold inside in Hin'. simpl in Hin'. revert Hin'. zbool; intros; try discriminate; lia. }
  rewrite Hpix, Hin'. unfold colour_of.
  pose proof (gray_level_bounds x Hx) as Hb.
  split; [exists (gray_level x); split; [exact Hb | reflexivity] |].
  split; [reflexivity |]. split; [intros [= H1 H2]; lia |].
  split; [reflexivity |]. intros [= H1 H2]. lia.
Qed.

Lemma gradient_misses_comment_colours_witness :
  exists img, gradient_pass plain_pil = Ok img /\ pixel img 0 0 <> (23, 24, 28).
Proof.
  destruct (gradient_misses_comment_colours plain_pil) as (img & Hrun & H).
  exists img. split; [exact Hrun |].
  assert (Hin : inside img 0 0 = true).
  { destruct (gradient_pass_ok plain_pil) as (img' & Hrun' & Hw & Hh & _).
    assert (img' = img) by congruence. subst img'.
    unfold inside. rewrite Hw, Hh. reflexivity. }
  exact (proj1 (proj2 (proj2 (H 0 0 Hin)))).
Defined.

(** ** The gradient loop on other images *)

Lemma tobytes_ext_inside (a b : Image) :
  width a = width b -> height a = height b ->
  (forall x y, inside a x y = true -> pixel a x y = pixel b x y) ->
  tobytes a = tobytes b.
Proof.
  intros Hw Hh Hpix. unfold tobytes. rewrite Hh. f_equal.
  apply map_ext_in. intros y Hy. unfold row. rewrite Hw.
  apply map_ext_in. intros x Hx. apply Hpix.
  unfold range in Hx, Hy.
  apply in_map_iff in Hx as (nx & <- & Hx). apply in_seq in Hx.
  apply in_map_iff in Hy as (ny & <- & Hy). apply in_seq in Hy.
  unfold inside. rewrite Hw, Hh. zbool; lia || reflexivity.
Qed.

(** X3: Lines 11 to 13 on any image: the loop completes, keeps the size,
    and paints columns 0 to 300 on rows 0 to 300, as far as the image
    reaches; column 300 is left in the colour of column 299. *)
Theorem gradient_on_any_image (pil : Pillow) (img : Image) :
  exists img',
    gradient pil img = Ok img'
    /\ width img' = width img /\ height img' = height img
    /\ forall x y, pixel img' x y =
         if inside img x y && (x <=? 300) && (y <=? 300)
         then colour_of (Z.min x 299)
         else pixel img x y.
Proof.
  destruct (gradient_prefix pil img 300) as (img' & Hrun & Hw & Hh & Hpix); [lia |].
  exists img'. split; [exact Hrun |]. split; [exact Hw |]. split; [exact Hh |].
  intros x y. rewrite Hpix. unfold inside.
  zbool; try reflexivity; try lia; f_equal; lia.
Qed.

(** X4: The fill colour of line 7 is dead: the gradient pass overwrites
    every pixel of a 300 by 300 image, so any two such images come out
    of the loop with the same pixels and the same raw data. *)
Theorem gradient_overwrites (pil : Pillow) (a b : Image) :
  width a = 300 -> height a = 300 -> width b = 300 -> height b = 300 ->
  exists a' b',
    gradient pil a = Ok a' /\ gradient pil b = Ok b'
    /\ (forall x y, inside a x y = true -> pixel a' x y = pixel b' x y)
    /\ tobytes a' = tobytes b'.
Proof.
  intros Hwa Hha Hwb Hhb.
  destruct (gradient_prefix pil a 300) as (a' & Ha & Hwa' & Hha' & Hpa); [lia |].
  destruct (gradient_prefix pil b 300) as (b' & Hb & Hwb' & Hhb' & Hpb); [lia |].
  exists a', b'. split; [exact Ha |]. split; [exact Hb |].
  assert (Hpix : forall x y, inside a x y = true -> pixel a' x y = pixel b' x y).
  { intros x y Hin. rewrite Hpa, Hpb, Hin.
    assert (Hinb : inside b x y = true)
      by (unfold inside in *; rewrite Hwb, Hhb; rewrite Hwa, Hha in Hin; exact Hin).
    rewrite Hinb. unfold inside in Hin. rewrite Hwa, Hha in Hin. revert Hin.
    zbool; intros; try discriminate; try reflexivity; lia. }
  split; [exact Hpix |].
  apply tobytes_ext_inside; [congruence | congruence |].
  intros x y Hin. apply Hpix. unfold inside in *. rewrite Hwa', Hha' in Hin. exact Hin.
Qed.

Lemma gradient_overwrites_witness :
  exists a' b',
    gradient plain_pil blank = Ok a' /\ gradient plain_pil checker = Ok b'
    /\ pixel a' 10 10 = pixel b' 10 10
    /\ tobytes a' = tobytes b'.
Proof.
  destruct (gradient_overwrites plain_pil blank checker eq_refl eq_refl eq_refl eq_refl)
    as (a' & b' & Ha & Hb & Hpix & Hraw).
  exists a', b'. split; [exact Ha |]. split; [exact Hb |].
  split; [exact (Hpix 10 10 eq_refl) | exact Hraw].
Defined.

Lemma gradient_columns_on_any_image (img : Image) :
  exists img',
    gradient_columns img = Ok img'
    /\ width img' = width img /\ height img' = height img
    /\ forall x y, pixel img' x y =
         if inside img x y && (x <? 300) && (y <? 300) then colour_of x else pixel img x y.
Proof.
  destruct (columns_prefix img 300) as (img' & Hrun & Hw & Hh & Hpix); [lia |].
  exists img'. split; [exact Hrun |]. split; [exact Hw |]. split; [exact Hh |].
  intros x y. rewrite Hpix. unfold inside.
  zbool; try reflexivity; lia.
Qed.

(** X5: The loop of the script and the loop over disjoint columns agree on
    every image that is at most 300 wide and 300 high, and only because
    of the clipping: on a 301 by 301 image the script's loop also paints
    column 300 and row 300, which the disjoint columns leave alone. *)
Theorem gradient_refinement_needs_clipping (pil : Pillow) (img : Image) :
  width img <= 300 -> height img <= 300 ->
  (exists a b,
     gradient pil img = Ok a /\ gradient_columns img = Ok b
     /\ forall x y, pixel a x y = pixel b x y)
  /\ exists a b,
       gradient pil wide_blank = Ok a /\ gradient_columns wide_blank = Ok b
       /\ pixel a 300 0 = (35, 35, 39) /\ pixel b 300 0 = (23, 24, 28)
       /\ pixel a 0 300 = (23, 23, 27) /\ pixel b 0 300 = (23, 24, 28).
Proof.
  intros Hw Hh. split.
  - destruct (gradient_prefix pil img 300) as (a & Ha & _ & _ & Hpa); [lia |].
    destruct (columns_prefix img 300) as (b & Hb & _ & _ & Hpb); [lia |].
    exists a, b. split; [exact Ha |]. split; [exact Hb |].
    intros x y. rewrite Hpa, Hpb. unfold inside.
    zbool; try reflexivity; lia.
  - destruct (gradient_prefix pil wide_blank 300) as (a & Ha & _ & _ & Hpa); [lia |].
    destruct (columns_prefix wide_blank 300) as (b & Hb & _ & _ & Hpb); [lia |].
    exists a, b. split; [exact Ha |]. split; [exact Hb |].
    rewrite !Hpa, !Hpb. repeat split; reflexivity.
Qed.

Lemma gradient_refinement_needs_clipping_witness :
  exists a b,
    gradient plain_pil checker = Ok a /\ gradient_columns checker = Ok b
    /\ pixel a 299 299 = pixel b 299 299.
Proof.
  destruct (gradient_refinement_needs_clipping plain_pil checker) as ((a & b & Ha & Hb & H) & _).
  - simpl. lia.
  - simpl. lia.
  - exists a, b. split; [exact Ha |]. split; [exact Hb |]. apply H.
Defined.

(** ** The icon *)

Lemma icon_pixels (pil : Pillow) (img : Image) :
  exists img',
    icon pil img = Ok img'
    /\ forall x y, pixel img' x y =
         if inside img x y && icon_cover pil x y then accent_rgb else pixel img x y.
Proof.
  eexists. split; [apply icon_eq |]. intros x y.
  unfold icon_cover, paint_solid, paint, inside. simpl.
  destruct ((0 <=? x) && (x <? width img) && (0 <=? y) && (y <? height img)); simpl;
    [| reflexivity].
  destruct (in_bbox {| x0 := 165; y0 := 95; x1 := 185; y1 := 115 |} x y
            && ellipse_cover pil {| x0 := 165; y0 := 95; x1 := 185; y1 := 115 |} true 0 x y);
    [rewrite !orb_true_r; reflexivity | rewrite orb_false_r].
  destruct (in_bbox (line_box (175, 150) (175, 100) 3) x y
            && line_cover pil (175, 150) (175, 100) 3 x y);
    [rewrite orb_true_r; reflexivity | rewrite orb_false_r].
  destruct (in_bbox {| x0 := 120; y0 := 140; x1 := 180; y1 := 200 |} x y
            && ellipse_cover pil {| x0 := 120; y0 := 140; x1 := 180; y1 := 200 |} false 2 x y);
    reflexivity.
Qed.

(** X6: Lines 16 to 18 on any image: the three calls complete and leave the
    accent colour exactly on the pixels of the image that one of the
    three shapes covers, everything else as it was.  The shapes share
    one colour, so drawing them in the opposite order gives the same
    pixels. *)
Theorem icon_is_union (pil : Pillow) (img : Image) :
  exists a b,
    icon pil img = Ok a
    /\ for_each (rev icon_calls) (exec pil) img = Ok b
    /\ (forall x y, pixel a x y =
          if inside img x y && icon_cover pil x y then accent_rgb else pixel img x y)
    /\ forall x y, pixel b x y = pixel a x y.
Proof.
  destruct (icon_pixels pil img) as (a & Ha & Hpa).
  exists a. eexists. split; [exact Ha |]. split; [reflexivity |].
  split; [exact Hpa |]. intros x y. rewrite Hpa.
  unfold icon_cover, paint_solid, paint, inside. simpl.
  destruct ((0 <=? x) && (x <? width img) && (0 <=? y) && (y <? height img)); simpl;
    [| reflexivity].
  destruct (in_bbox {| x0 := 120; y0 := 140; x1 := 180; y1 := 200 |} x y
            && ellipse_cover pil {| x0 := 120; y0 := 140; x1 := 180; y1 := 200 |} false 2 x y);
    [reflexivity | simpl].
  destruct (in_bbox (line_box (175, 150) (175, 100) 3) x y
            && line_cover pil (175, 150) (175, 100) 3 x y);
    [reflexivity | simpl].
  destruct (in_bbox {| x0 := 165; y0 := 95; x1 := 185; y1 := 115 |} x y
            && ellipse_cover pil {| x0 := 165; y0 := 95; x1 := 185; y1 := 115 |} true 0 x y);
    reflexivity.
Qed.

Lemma before_caption_pixels (pil : Pillow) :
  exists img,
    before_caption pil = Ok img
    /\ width img = 300 /\ height img = 300
    /\ forall x y, inside blank x y = true ->
         pixel img x y = if icon_cover pil x y then accent_rgb else colour_of x.
Proof.
  destruct (gradient_pass_ok pil) as (g & Hg & Hw & Hh & Hpix).
  destruct (icon_pixels pil g) as (img & Hi & Hpi).
  destruct (icon_ok pil g) as (img' & Hi' & (Hw' & Hh' & _) & _).
  assert (img' = img) by congruence. subst img'.
  exists img. unfold before_caption. rewrite Hg. simpl.
  split; [exact Hi |]. split; [congruence |]. split; [congruence |].
  intros x y Hin. rewrite Hpi, Hpix, Hin.
  assert (Hing : inside g x y = true) by (unfold inside in *; rewrite Hw, Hh; exact Hin).
  rewrite Hing. reflexivity.
Qed.

(** X7: The image handed to [save], pixel by pixel and for every backend,
    in three layers: the gradient colour of the column, the accent
    colour where an icon shape covers the pixel, and on top the caption,
    blended in the accent colour where a glyph covers the pixel and
    absent when the text call raises. *)
Theorem render_layers (pil : Pillow) :
  exists img,
    render pil = Ok img
    /\ width img = 300 /\ height img = 300
    /\ forall x y, inside img x y = true ->
         let under := if icon_cover pil x y then accent_rgb else colour_of x in
         pixel img x y =
           match text_coverage pil (150, 230) "No Artwork" "mm" with
           | Ok cov => if cov x y =? 0 then under else blend pil (cov x y) accent_rgb under
           | Raise _ => under
           end.
Proof.
  destruct (before_caption_pixels pil) as (b & Hb & Hw & Hh & Hpix).
  destruct (caption_ok pil b) as ((Hw' & Hh' & _) & _).
  exists (caption pil b). unfold render. rewrite Hb. simpl.
  split; [reflexivity |]. split; [congruence |]. split; [congruence |].
  intros x y Hin.
  assert (Hinb : inside b x y = true)
    by (unfold inside in *; rewrite Hw', Hh' in Hin; exact Hin).
  assert (Hin0 : inside blank x y = true)
    by (unfold inside in *; rewrite Hw, Hh in Hinb; exact Hinb).
  unfold caption. rewrite exec_caption.
  destruct (text_coverage pil (150, 230) "No Artwork" "mm") as [cov | e]; simpl.
  - rewrite Hinb, (Hpix x y Hin0). simpl. destruct (cov x y =? 0); reflexivity.
  - apply (Hpix x y Hin0).
Qed.

Lemma render_layers_witness :
  exists img,
    render plain_pil = Ok img
    /\ pixel img 150 230 = accent_rgb
    /\ pixel img 175 120 = accent_rgb
    /\ pixel img 30 30 = colour_of 30.
Proof.
  destruct (render_layers plain_pil) as (img & Hrun & Hw & Hh & H).
  assert (Hin : forall x y, 0 <= x < 300 -> 0 <= y < 300 -> inside img x y = true).
  { intros x y Hx Hy. unfold inside. rewrite Hw, Hh. zbool; lia || reflexivity. }
  exists img. split; [exact Hrun |]. split; [| split].
  - exact (H 150 230 (Hin 150 230 ltac:(lia) ltac:(lia))).
  - exact (H 175 120 (Hin 175 120 ltac:(lia) ltac:(lia))).
  - exact (H 30 30 (Hin 30 30 ltac:(lia) ltac:(lia))).
Defined.

(** X8: Whatever the backend makes of the ellipses and the line, the icon
    stays in columns 120 to 185 and rows 95 to 200: every other pixel
    of the final image that the caption glyphs do not cover carries the
    gradient colour of its column. *)
Theorem icon_stays_in_frame (pil : Pillow) :
  exists img,
    render pil = Ok img
    /\ forall x y, 0 <= x < 300 -> 0 <= y < 300 ->
         x < 120 \/ 185 < x \/ y < 95 \/ 200 < y ->
         caption_area pil x y = false ->
         pixel img x y = (23 + 13 * x / 300, 23 + 13 * x / 300, 23 + 13 * x / 300 + 4).
Proof.
  destruct (render_ok pil) as (img & Hrun & _ & _ & Hpix).
  exists img. split; [exact Hrun |]. intros x y Hx Hy Hout Hcap.
  apply Hpix; [| | exact Hcap].
  - unfold inside. simpl. zbool; lia || reflexivity.
  - unfold icon_area, in_bbox. simpl. zbool; lia || reflexivity.
Qed.

Lemma icon_stays_in_frame_witness :
  exists img, render plain_pil = Ok img /\ pixel img 100 150 = (27, 27, 31).
Proof.
  destruct (icon_stays_in_frame plain_pil) as (img & Hrun & H).
  exists img. split; [exact Hrun |].
  exact (H 100 150 ltac:(lia) ltac:(lia) ltac:(lia) eq_refl).
Defined.

(** X9: The backend's font reaches the image through the caption only: two
    backends that agree on ellipses and lines render the same pixel
    wherever neither draws a glyph.  A font that refuses the anchor thus
    costs the caption and nothing else. *)
Theorem font_changes_caption_only (p q : Pillow) :
  ellipse_cover p = ellipse_cover q ->
  line_cover p = line_cover q ->
  exists a b,
    render p = Ok a /\ render q = Ok b
    /\ width a = width b /\ height a = height b
    /\ forall x y, caption_area p x y = false -> caption_area q x y = false ->
         pixel a x y = pixel b x y.
Proof.
  intros He Hl.
  destruct (gradient_pass_ok p) as (gp & Hgp & _ & _ & Hpp).
  destruct (gradient_pass_ok q) as (gq & Hgq & _ & _ & Hpq).
  destruct (icon_pixels p gp) as (ip & Hip & Hipp).
  destruct (icon_pixels q gq) as (iq & Hiq & Hipq).
  destruct (before_caption_ok p) as (bp & Hbp & Hwp & Hhp & _).
  destruct (before_caption_ok q) as (bq & Hbq & Hwq & Hhq & _).
  assert (bp = ip) by (unfold before_caption in Hbp; rewrite Hgp in Hbp; simpl in Hbp; congruence).
  assert (bq = iq) by (unfold before_caption in Hbq; rewrite Hgq in Hbq; simpl in Hbq; congruence).
  subst bp bq.
  destruct (caption_ok p ip) as ((Hwcp & Hhcp & _) & Hfp).
  destruct (caption_ok q iq) as ((Hwcq & Hhcq & _) & Hfq).
  exists (caption p ip), (caption q iq).
  unfold render. rewrite Hbp, Hbq. simpl.
  split; [reflexivity |]. split; [reflexivity |].
  split; [congruence |]. split; [congruence |].
  intros x y Hcp Hcq. rewrite (Hfp x y Hcp), (Hfq x y Hcq), Hipp, Hipq.
  assert (Hin : inside gp x y = inside gq x y).
  { destruct (gradient_pass_ok p) as (g1 & H1 & Hw1 & Hh1 & _).
    destruct (gradient_pass_ok q) as (g2 & H2 & Hw2 & Hh2 & _).
    assert (g1 = gp) by congruence. assert (g2 = gq) by congruence. subst.
    unfold inside. rewrite Hw1, Hh1, Hw2, Hh2. reflexivity. }
  unfold icon_cover. rewrite Hin, He, Hl, Hpp, Hpq. reflexivity.
Qed.

Lemma font_changes_caption_only_witness :
  exists a b,
    render plain_pil = Ok a /\ render bitmap_font_pil = Ok b
    /\ pixel a 150 170 = pixel b 150 170.
Proof.
  destruct (font_changes_caption_only plain_pil bitmap_font_pil eq_refl eq_refl)
    as (a & b & Ha & Hb & _ & _ & H).
  exists a, b. split; [exact Ha |]. split; [exact Hb |].
  exact (H 150 170 eq_refl eq_refl).
Defined.

(** ** Where the file goes *)

Lemma append_cons (c : ascii) (a b : string) :
  (String c a ++ b)%string = String c (a ++ b).
Proof. reflexivity. Qed.

Lemma upto_last_sep_no_sep (name : string) :
  no_sep name = true -> upto_last_sep name = EmptyString.
Proof.
  induction name as [| c r IH]; [reflexivity |]. simpl. intros H.
  apply andb_prop in H as [Hc Hr]. rewrite (IH Hr).
  destruct (is_sep c); [discriminate | reflexivity].
Qed.

Lemma upto_last_sep_app (a name : string) :
  no_sep name = true ->
  upto_last_sep (a ++ String sep name) = (a ++ String sep EmptyString)%string.
Proof.
  intros H. induction a as [| c a IH].
  - change (upto_last_sep (String sep name) = String sep EmptyString).
    simpl. rewrite (upto_last_sep_no_sep name H). reflexivity.
  - rewrite !append_cons. simpl. rewrite IH.
    destruct a; reflexivity.
Qed.

Lemma all_sep_app (a b : string) : all_sep (a ++ b) = all_sep a && all_sep b.
Proof.
  induction a as [| c a IH]; [reflexivity |].
  rewrite append_cons. simpl. rewrite IH. apply andb_assoc.
Qed.

Lemma rstrip_sep_app (a b : string) :
  rstrip_sep b <> EmptyString -> rstrip_sep (a ++ b) = (a ++ rstrip_sep b)%string.
Proof.
  intros H. induction a as [| c a IH]; [reflexivity |].
  rewrite !append_cons. simpl. rewrite IH.
  destruct (a ++ rstrip_sep b)%string eqn:E; [| reflexivity].
  destruct a; [| discriminate]. simpl in E. contradiction.
Qed.

Lemma dirname_placeholder (prefix : string) :
  dirname (prefix ++ "../public/img/placeholder-new.png")
  = (prefix ++ "../public/img")%string.
Proof.
  unfold dirname.
  change "../public/img/placeholder-new.png"%string
    with ("../public/img" ++ String sep "placeholder-new.png")%string.
  rewrite <- append_assoc, upto_last_sep_app by reflexivity.
  rewrite append_assoc.
  change ("../public/img" ++ String sep "")%string with "../public/img/"%string.
  rewrite all_sep_app.
  change (all_sep "../public/img/") with false. rewrite andb_false_r.
  rewrite rstrip_sep_app by discriminate. reflexivity.
Qed.

(** X10: The directory the script writes in, for every value of [__file__]:
    [public/img] beside the directory of the script, named through
    [..].  Nothing creates it: when it is missing the run ends in an
    uncaught [OSError] on the output path with nothing printed, also if
    the directory of the script itself exists. *)
Theorem output_directory (pil : Pillow) (file : string) (w : World) :
  dirname (output_path file)
  = (dirname file ++ joint (dirname file) ++ "../public/img")%string
  /\ ((dirname file ++ joint (dirname file) ++ "../public/img")%string ∉ dirs (fs w) ->
      main pil file w = Uncaught (OSError ENOENT (output_path file)) (stdout w)).
Proof.
  assert (Hdir : dirname (output_path file)
                 = (dirname file ++ joint (dirname file) ++ "../public/img")%string).
  { rewrite output_path_eq, <- !append_assoc, dirname_placeholder. reflexivity. }
  split; [exact Hdir |]. intros Hmiss. rewrite <- Hdir in Hmiss.
  destruct (render_ok pil) as (img & Hr & _).
  rewrite (main_eq pil file w img Hr).
  apply save_and_report_raise.
  apply (proj1 (write_file_errors _ _ _) Hmiss).
Qed.

Lemma output_directory_witness :
  dirname (output_path script_file) = img_dir
  /\ main plain_pil script_file no_public_world
     = Uncaught (OSError ENOENT (output_path script_file)) [ "$ run"%string ].
Proof.
  destruct (output_directory plain_pil script_file no_public_world) as [Hdir Hfail].
  split; [exact Hdir |]. apply Hfail.
  cbn [no_public_world fs no_public_fs dirs]. intros H.
  apply elem_of_union in H as [H | H]; apply elem_of_singleton in H;
    vm_compute in H; discriminate.
Defined.

Lemma all_sep_ends (d : string) :
  all_sep d = true -> d = EmptyString \/ ends_with_sep d = true.
Proof.
  induction d as [| c r IH]; [auto |]. simpl. intros H.
  apply andb_prop in H as [Hc Hr]. right.
  destruct r as [| c' r']; [exact Hc |].
  destruct (IH Hr) as [E | E]; [discriminate | exact E].
Qed.

Lemma rstrip_sep_cons (c : ascii) (r : string) :
  rstrip_sep (String c r) =
    match rstrip_sep r with
    | EmptyString => if is_sep c then EmptyString else String c EmptyString
    | String _ _ as r' => String c r'
    end.
Proof. reflexivity. Qed.

Lemma rstrip_sep_dir (d : string) :
  d <> EmptyString -> ends_with_sep d = false ->
  rstrip_sep (d ++ String sep EmptyString) = d.
Proof.
  induction d as [| c r IH]; [contradiction |]. intros _ He.
  rewrite append_cons. destruct r as [| c' r'].
  - change (rstrip_sep (String c (String sep EmptyString)) = String c EmptyString).
    change (ends_with_sep (String c EmptyString)) with (is_sep c) in He.
    simpl. rewrite He. reflexivity.
  - change (ends_with_sep (String c (String c' r'))) with (ends_with_sep (String c' r')) in He.
    rewrite rstrip_sep_cons, IH by (discriminate || exact He). reflexivity.
Qed.

(** X11: A script stored as [d/name] writes [d/../public/img/placeholder-new.png],
    when [d] does not end in a separator and [name] contains none; a
    script named without any directory writes relative to the working
    directory. *)
Theorem output_path_of_location (d name : string) :
  no_sep name = true ->
  output_path name = "../public/img/placeholder-new.png"%string
  /\ (d <> EmptyString -> ends_with_sep d = false ->
      dirname (d ++ String sep name) = d
      /\ output_path (d ++ String sep name)
         = (d ++ "/../public/img/placeholder-new.png")%string).
Proof.
  intros Hname. split.
  - unfold output_path, dirname. rewrite (upto_last_sep_no_sep name Hname). reflexivity.
  - intros Hd He.
    assert (Hdir : dirname (d ++ String sep name) = d).
    { unfold dirname. rewrite (upto_last_sep_app d name Hname), all_sep_app.
      destruct (all_sep d) eqn:Ha.
      - destruct (all_sep_ends d Ha); [contradiction | congruence].
      - simpl. apply rstrip_sep_dir; assumption. }
    split; [exact Hdir |].
    rewrite output_path_eq, Hdir. unfold joint. rewrite He.
    destruct d; [contradiction | reflexivity].
Qed.

Lemma output_path_of_location_witness :
  output_path "create-placeholder.py" = "../public/img/placeholder-new.png"%string
  /\ output_path "tools/gen/create-placeholder.py"
     = "tools/gen/../public/img/placeholder-new.png"%string.
Proof.
  destruct (output_path_of_location "tools/gen" "create-placeholder.py" eq_refl)
    as [Hbare Hdir].
  split; [exact Hbare |].
  destruct Hdir as [_ Hout]; [discriminate | reflexivity |]. exact Hout.
Defined.

(** ** The size report *)

Lemma size_line_eq (n : Z) :
  0 <= n < 2 ^ 53 -> size_line n = size_text (round_half_even (10 * n) 1024).
Proof.
  intros H. unfold size_line, size_text. rewrite (format_1f_size n H).
  unfold one_decimal. cbv zeta. rewrite !append_assoc. reflexivity.
Qed.

Lemma round_half_even_mono (a b den : Z) :
  0 < den -> a <= b -> round_half_even a den <= round_half_even b den.
Proof.
  intros Hden Hab. unfold round_half_even.
  pose proof (Z.div_mod a den ltac:(lia)) as Ha.
  pose proof (Z.div_mod b den ltac:(lia)) as Hb.
  pose proof (Z.mod_pos_bound a den Hden) as Hra.
  pose proof (Z.mod_pos_bound b den Hden) as Hrb.
  assert (Hq : a / den <= b / den) by (apply Z.div_le_mono; lia).
  destruct (Z.eq_dec (a / den) (b / den)) as [E | E].
  - rewrite <- E in *. assert (a mod den <= b mod den) by lia.
    destruct (Z.ltb_spec (2 * (a mod den)) den), (Z.ltb_spec (2 * (b mod den)) den);
      try lia;
      destruct (Z.ltb_spec den (2 * (a mod den))), (Z.ltb_spec den (2 * (b mod den)));
      try lia; destruct (Z.even (a / den)); lia.
  - destruct (Z.ltb_spec (2 * (a mod den)) den), (Z.ltb_spec (2 * (b mod den)) den);
      try lia;
      destruct (Z.ltb_spec den (2 * (a mod den))), (Z.ltb_spec den (2 * (b mod den)));
      try lia; destruct (Z.even (a / den)), (Z.even (b / den)); lia.
Qed.

(** X12: Line 33 on a whole number of kilobytes: the figure printed is that
    number followed by [.0], for every size below 2^53 bytes. *)
Theorem size_line_whole_kilobytes (k : Z) :
  0 <= k -> 1024 * k < 2 ^ 53 ->
  size_line (1024 * k) = ("✓ Size: " ++ dec k ++ ".0KB (was 4.4MB)")%string.
Proof.
  intros Hk Hlt. rewrite size_line_eq by lia.
  assert (Ht : round_half_even (10 * (1024 * k)) 1024 = k * 10).
  { unfold round_half_even.
    replace (10 * (1024 * k)) with (k * 10 * 1024) by lia.
    rewrite Z.div_mul, Z.mod_mul by lia. reflexivity. }
  rewrite Ht. unfold size_text. rewrite Z.div_mul, Z.mod_mul by lia. reflexivity.
Qed.

Lemma size_line_whole_kilobytes_witness :
  size_line 4096 = "✓ Size: 4.0KB (was 4.4MB)"%string.
Proof. exact (size_line_whole_kilobytes 4 ltac:(lia) ltac:(lia)). Defined.

(** X13: Line 33 never reports a smaller figure for a larger file: for sizes
    [a <= b] below 2^53 bytes the tenths printed for [a] are at most
    those printed for [b]. *)
Theorem size_line_monotone (a b : Z) :
  0 <= a -> a <= b -> b < 2 ^ 53 ->
  let ta := round_half_even (10 * a) 1024 in
  let tb := round_half_even (10 * b) 1024 in
  size_line a = size_text ta /\ size_line b = size_text tb /\ 0 <= ta <= tb.
Proof.
  intros Ha Hab Hb ta tb.
  split; [apply size_line_eq; lia |]. split; [apply size_line_eq; lia |].
  split; [| apply round_half_even_mono; lia].
  change 0 with (round_half_even (10 * 0) 1024) at 1.
  apply round_half_even_mono; lia.
Qed.

Lemma size_line_monotone_witness :
  size_line 1485 = size_text 15 /\ size_line 90008 = size_text 879 /\ 0 <= 15 <= 879.
Proof. exact (size_line_monotone 1485 90008 ltac:(lia) ltac:(lia) ltac:(lia)). Defined.
